(** * fewsats_mcp.server: the tool registry and the dispatcher

    A shallow embedding of [src/fewsats_mcp/server.py]: the values the
    server handles, [json.dumps] as the server calls it, the response
    normaliser [_handle_response], the catalogue [list_tools] and the
    dispatcher [call_tool], followed by the properties of the
    specification stated on them.

    Conventions.
    - A Python [str] is a [string]; each [ascii] stands for one code point
      below 256.
    - A Python [dict] is an association list in insertion order, as
      [json.dumps] walks it; a key is looked up at its first entry.
    - The payment client [Fewsats()] is an external collaborator.  A call
      to it is a node of a program tree ([prog]); the tree is run against
      any state machine that answers the six operations with a response
      or an exception.
    - Exceptions are instances of [Exception], the ones [except Exception]
      catches; interrupts of the process are not modelled.
    - The arguments of an invocation are decoded from a request, so they
      hold JSON values; the properties that need it say so with
      [json.serializable]. *)

From Stdlib Require Import List String Ascii ZArith Bool Lia.
From Stdlib Require Import DecimalString.
Import ListNotations.

Local Open Scope string_scope.
Local Open Scope Z_scope.

Set Warnings "-register-all".

(** ** Python values *)

(** An instance of a class [json] has no encoding for: its class name and
    what [str()] returns for it. *)
Record pyobject : Type := mk_pyobject {
  class_name : string;
  obj_str : string
}.

(** The values that reach the server.  A [float] is carried as the text
    [float.__repr__] gives it. *)
Inductive pyvalue : Type :=
| PNone
| PBool (b : bool)
| PInt (n : Z)
| PFloat (repr : string)
| PStr (s : string)
| PList (items : list pyvalue)
| PTuple (items : list pyvalue)
| PDict (entries : list (string * pyvalue))
| PObject (o : pyobject).

Definition dict : Type := list (string * pyvalue).

(** The built-in [str] at an instance. *)
Definition str (o : pyobject) : string := obj_str o.

(** ** Exceptions (subclasses of [Exception]) *)

Inductive exn : Type :=
| KeyError (key : string)
| ValueError (msg : string)
| TypeError (msg : string)
| OtherError (msg : string).

(** [str(e)].  A [KeyError] prints the [repr] of its key; the keys the
    server subscripts with are identifiers, whose [repr] is the key
    between single quotes. *)
Definition str_exn (e : exn) : string :=
  match e with
  | KeyError key => "'" ++ key ++ "'"
  | ValueError msg => msg
  | TypeError msg => msg
  | OtherError msg => msg
  end.

(** The result of evaluating an expression: a value, or an exception. *)
Definition result (A : Type) : Type := (exn + A)%type.

Definition ok {A} (a : A) : result A := inr a.
Definition raise {A} (e : exn) : result A := inl e.

Definition rbind {A B} (r : result A) (f : A -> result B) : result B :=
  match r with
  | inl e => inl e
  | inr a => f a
  end.

(** Evaluate [f] on the items from left to right and stop at the first
    exception. *)
Definition rmap {A B} (f : A -> result B) : list A -> result (list B) :=
  fix go (l : list A) : result (list B) :=
    match l with
    | [] => ok []
    | a :: l' => rbind (f a) (fun b => rbind (go l') (fun bs => ok (b :: bs)))
    end.

(** [arguments[key]] *)
Fixpoint lookup (key : string) (d : dict) : option pyvalue :=
  match d with
  | [] => None
  | (k, v) :: d' => if String.eqb k key then Some v else lookup key d'
  end.

Definition getitem (d : dict) (key : string) : result pyvalue :=
  match lookup key d with
  | Some v => ok v
  | None => raise (KeyError key)
  end.

(** ** [json.dumps] *)

Module json.

Definition dquote : string := String "034" EmptyString.
Definition backslash : string := String "092" EmptyString.

Definition hex_digit (n : nat) : ascii :=
  match n with
  | 0 => "0" | 1 => "1" | 2 => "2" | 3 => "3" | 4 => "4" | 5 => "5"
  | 6 => "6" | 7 => "7" | 8 => "8" | 9 => "9" | 10 => "a" | 11 => "b"
  | 12 => "c" | 13 => "d" | 14 => "e" | _ => "f"
  end%nat%char.

(** [ESCAPE_DCT] and the [\uXXXX] fallback of
    [py_encode_basestring_ascii], for one code point below 256, as a
    [string] holds them; [escape_code_point], further down, is the
    function at every code point. *)
Definition escape_char (c : ascii) : string :=
  let n := nat_of_ascii c in
  if Nat.eqb n 34 then backslash ++ dquote
  else if Nat.eqb n 92 then backslash ++ backslash
  else if Nat.eqb n 10 then backslash ++ "n"
  else if Nat.eqb n 13 then backslash ++ "r"
  else if Nat.eqb n 9 then backslash ++ "t"
  else if Nat.eqb n 8 then backslash ++ "b"
  else if Nat.eqb n 12 then backslash ++ "f"
  else if (Nat.leb 32 n && Nat.leb n 126)%bool then String c EmptyString
  else backslash ++ "u00"
         ++ String (hex_digit (Nat.div n 16))
              (String (hex_digit (Nat.modulo n 16)) EmptyString).

Fixpoint escape (s : string) : string :=
  match s with
  | EmptyString => EmptyString
  | String c s' => escape_char c ++ escape s'
  end.

(** The string encoder: the text between double quotes, escaped. *)
Definition encode_str (s : string) : string := dquote ++ escape s ++ dquote.

(** [int.__repr__] *)
Definition intstr (n : Z) : string := NilZero.string_of_int (Z.to_int n).

Fixpoint spaces (n : nat) : string :=
  match n with
  | O => EmptyString
  | S n' => " " ++ spaces n'
  end.

Definition lf : string := String "010" EmptyString.

Section Encoder.

(** [indent=]: the number of spaces of one level. *)
Variable indent : nat.

(** [default=]: what is encoded in place of an instance [json] does
    not know; without it [JSONEncoder.default] raises. *)
Variable default : option (pyobject -> string).

(** ['\n' + _indent * _current_indent_level] *)
Definition newline_indent (level : nat) : string :=
  lf ++ spaces (indent * level).

(** The chunks of a non-empty container between its brackets. *)
Definition bracket (opening closing : string) (level : nat)
    (chunks : list string) : string :=
  opening ++ newline_indent (S level)
    ++ String.concat ("," ++ newline_indent (S level)) chunks
    ++ newline_indent level ++ closing.

Definition encode_default (o : pyobject) : result string :=
  match default with
  | Some f => ok (encode_str (f o))
  | None =>
      raise (TypeError ("Object of type " ++ class_name o
                          ++ " is not JSON serializable"))
  end.

(** [_iterencode] with [_iterencode_list] and [_iterencode_dict], the
    chunks joined. *)
Fixpoint iterencode (o : pyvalue) (level : nat) {struct o} : result string :=
  match o with
  | PStr s => ok (encode_str s)
  | PNone => ok "null"
  | PBool true => ok "true"
  | PBool false => ok "false"
  | PInt n => ok (intstr n)
  | PFloat repr => ok repr
  | PList [] => ok "[]"
  | PList items =>
      rbind (rmap (fun v => iterencode v (S level)) items)
            (fun chunks => ok (bracket "[" "]" level chunks))
  | PTuple [] => ok "[]"
  | PTuple items =>
      rbind (rmap (fun v => iterencode v (S level)) items)
            (fun chunks => ok (bracket "[" "]" level chunks))
  | PDict [] => ok "{}"
  | PDict entries =>
      rbind (rmap (fun kv : string * pyvalue =>
                     let (k, v) := kv in
                     rbind (iterencode v (S level)) (fun c =>
                       ok (encode_str k ++ ": " ++ c)))
                  entries)
            (fun chunks => ok (bracket "{" "}" level chunks))
  | PObject o' => encode_default o'
  end.

Definition dumps (o : pyvalue) : result string := iterencode o 0.

End Encoder.

(** The values [dumps] encodes without a [default=]. *)
Fixpoint serializable (o : pyvalue) : bool :=
  match o with
  | PObject _ => false
  | PList items => forallb serializable items
  | PTuple items => forallb serializable items
  | PDict entries =>
      forallb (fun kv : string * pyvalue => serializable (snd kv)) entries
  | _ => true
  end.

End json.

(** ** The payment client *)

(** What a call to the client returns: [status_code], the outcome of
    [json()] (the parsed body, or the exception the parser raised) and
    [text], the body as it came. *)
Module Response.
Record t : Type := make {
  status_code : Z;
  json : result pyvalue;
  text : string
}.
End Response.

(** The six operations of [Fewsats()], with their positional arguments. *)
Module Fewsats.
Inductive request : Type :=
| balance
| payment_methods
| billing_info
| pay_offer (offer_id l402_offer : pyvalue)
| payment_info (pid : pyvalue)
| pay_x402_offer (x402_payload chain : pyvalue).
End Fewsats.

(** ** Programs that call the client *)

(** A program returns or raises ([Done]), or calls the client and goes on
    with what the call returned or raised ([Call]). *)
Inductive prog (A : Type) : Type :=
| Done (r : result A)
| Call (rq : Fewsats.request) (k : result Response.t -> prog A).

Arguments Done {A} r.
Arguments Call {A} rq k.

Definition ret {A} (a : A) : prog A := Done (ok a).
Definition throw {A} (e : exn) : prog A := Done (raise e).
Definition lift {A} (r : result A) : prog A := Done r.

Fixpoint bind {A B} (p : prog A) (f : A -> prog B) : prog B :=
  match p with
  | Done (inl e) => Done (inl e)
  | Done (inr a) => f a
  | Call rq k => Call rq (fun r => bind (k r) f)
  end.

(** [try: p  except Exception as e: h e] *)
Fixpoint try_except {A} (p : prog A) (h : exn -> prog A) : prog A :=
  match p with
  | Done (inl e) => h e
  | Done (inr a) => Done (inr a)
  | Call rq k => Call rq (fun r => try_except (k r) h)
  end.

(** [self.fewsats.<operation>(...)]: an exception of the client
    propagates. *)
Definition call (rq : Fewsats.request) : prog Response.t :=
  Call rq (fun r => Done r).

Notation "x <- p ;; q" := (bind p (fun x => q))
  (at level 61, p at next level, right associativity).

(** Running a program against a client: a state machine over any state
    [State] that answers each request with a response or an exception.  The
    run gives the requests made, in order, the state left and the outcome
    of the program. *)
Section Run.

Variable State : Type.
Variable backend : Fewsats.request -> State -> result Response.t * State.

Fixpoint run {A} (p : prog A) (s : State)
    : list Fewsats.request * State * result A :=
  match p with
  | Done r => ([], s, r)
  | Call rq k =>
      let (r, s') := backend rq s in
      let '(requests, s'', out) := run (k r) s' in
      (rq :: requests, s'', out)
  end.

Definition requests_of {A} (p : prog A) (s : State)
    : list Fewsats.request :=
  fst (fst (run p s)).

Definition outcome_of {A} (p : prog A) (s : State) : result A :=
  snd (run p s).

End Run.

Arguments run {State} backend {A} p s.
Arguments requests_of {State} backend {A} p s.
Arguments outcome_of {State} backend {A} p s.

(** ** [mcp.types] *)

Module TextContent.
Record t : Type := make {
  type : string;
  text : string
}.
End TextContent.

Module Tool.
Record t : Type := make {
  name : string;
  description : string;
  inputSchema : pyvalue
}.
End Tool.

(** ** [FewsatsMCPServer] *)

(** [_handle_response]: the pair of the status and the parsed body; when
    [response.json()] raises anything, the pair of the status and the
    text of the body. *)
Definition _handle_response (response : Response.t) : pyvalue :=
  match Response.json response with
  | inr parsed => PTuple [PInt (Response.status_code response); parsed]
  | inl _ =>
      PTuple [PInt (Response.status_code response);
              PStr (Response.text response)]
  end.

(** A schema entry [{"type": ty, "description": d}]. *)
Definition described (ty d : string) : pyvalue :=
  PDict [("type", PStr ty); ("description", PStr d)].

(** [list_tools]: the catalogue, a constant. *)
Definition list_tools : list Tool.t :=
  [ (* Wallet Management Tools *)
    Tool.make "balance"
      "Retrieve the balance of the user's wallet. You will rarely need to call this unless instructed by the user, or to troubleshoot payment issues. Fewsats will automatically add balance when needed."
      (PDict [("type", PStr "object"); ("properties", PDict [])]);
    Tool.make "payment_methods"
      "Retrieve the user's payment methods. You will rarely need to call this unless instructed by the user, or to troubleshoot payment issues. Fewsats will automatically select the best payment method."
      (PDict [("type", PStr "object"); ("properties", PDict [])]);
    Tool.make "billing_info"
      "Retrieve the user's billing information. Returns billing details including name, address, and other relevant information. This information can also be used as shipping address for purchases."
      (PDict [("type", PStr "object"); ("properties", PDict [])]);
    (* Payment Processing Tools *)
    Tool.make "pay_offer"
      "Pays an offer_id from the l402_offers. If payment status is 'needs_review' inform the user he will have to approve it at app.fewsats.com"
      (PDict
         [("type", PStr "object");
          ("properties", PDict
             [("offer_id",
               described "string" "String identifier for the offer to pay");
              ("l402_offer", PDict
                 [("type", PStr "object");
                  ("description", PStr "L402 offer object with structure containing offers array, payment_context_token, payment_request_url, and version");
                  ("properties", PDict
                     [("offers", PDict
                         [("type", PStr "array");
                          ("items", PDict
                             [("type", PStr "object");
                              ("properties", PDict
                                 [("id", described "string" "String identifier for the offer");
                                  ("amount", described "number" "Numeric cost value");
                                  ("currency", described "string" "Currency code");
                                  ("description", described "string" "Text description");
                                  ("title", described "string" "Title of the package")]);
                              ("required",
                               PList [PStr "id"; PStr "amount"; PStr "currency"])])]);
                      ("payment_context_token",
                       described "string" "Payment context token");
                      ("payment_request_url", described "string" "Payment URL");
                      ("version", described "string" "API version")]);
                  ("required",
                   PList [PStr "offers"; PStr "payment_context_token";
                          PStr "payment_request_url"; PStr "version"])])]);
          ("required", PList [PStr "offer_id"; PStr "l402_offer"])]);
    Tool.make "payment_info"
      "Retrieve the details of a payment. If payment status is 'needs_review' inform the user he will have to approve it at app.fewsats.com"
      (PDict
         [("type", PStr "object");
          ("properties", PDict
             [("pid", described "string" "Payment ID to retrieve information for")]);
          ("required", PList [PStr "pid"])]);
    (* X402 Protocol Tools *)
    Tool.make "create_x402_payment_header"
      "Creates a payment header for the X402 protocol. Returns a dict with the payment_header field that must be set in X-PAYMENT header in a x402 http request."
      (PDict
         [("type", PStr "object");
          ("properties", PDict
             [("chain", PDict
                 [("type", PStr "string");
                  ("enum", PList [PStr "base-sepolia"; PStr "base"]);
                  ("description", PStr "Blockchain network to use for payment")]);
              ("x402_payload", PDict
                 [("type", PStr "object");
                  ("description", PStr "X402 payload object with accepts array and protocol details");
                  ("properties", PDict
                     [("accepts", PDict
                         [("type", PStr "array");
                          ("items", PDict
                             [("type", PStr "object");
                              ("properties", PDict
                                 [("asset", described "string" "Asset contract address");
                                  ("description", described "string" "Payment description");
                                  ("extra", PDict
                                     [("type", PStr "object");
                                      ("properties", PDict
                                         [("name", PDict [("type", PStr "string")]);
                                          ("version", PDict [("type", PStr "string")])])]);
                                  ("maxAmountRequired", described "string" "Maximum amount required");
                                  ("maxTimeoutSeconds", described "number" "Maximum timeout in seconds");
                                  ("mimeType", described "string" "MIME type");
                                  ("network", described "string" "Network identifier");
                                  ("payTo", described "string" "Payment recipient address");
                                  ("resource", described "string" "Resource URL");
                                  ("scheme", described "string" "Payment scheme")]);
                              ("required",
                               PList [PStr "asset"; PStr "network";
                                      PStr "payTo"; PStr "resource"])])]);
                      ("error", described "string" "Error message");
                      ("x402Version", described "number" "X402 protocol version")]);
                  ("required", PList [PStr "accepts"; PStr "x402Version"])])]);
          ("required", PList [PStr "chain"; PStr "x402_payload"])]) ].

(** The routing of [call_tool] (the [if]/[elif] chain of its [try]
    block): what is bound to [result]. *)
Definition route (name : string) (arguments : dict) : prog pyvalue :=
  if (name =? "balance")%string then
    response <- call Fewsats.balance ;;
    ret (_handle_response response)
  else if (name =? "payment_methods")%string then
    response <- call Fewsats.payment_methods ;;
    ret (_handle_response response)
  else if (name =? "billing_info")%string then
    response <- call Fewsats.billing_info ;;
    ret (_handle_response response)
  else if (name =? "pay_offer")%string then
    offer_id <- lift (getitem arguments "offer_id") ;;
    l402_offer <- lift (getitem arguments "l402_offer") ;;
    response <- call (Fewsats.pay_offer offer_id l402_offer) ;;
    ret (_handle_response response)
  else if (name =? "payment_info")%string then
    pid <- lift (getitem arguments "pid") ;;
    response <- call (Fewsats.payment_info pid) ;;
    ret (_handle_response response)
  else if (name =? "create_x402_payment_header")%string then
    chain <- lift (getitem arguments "chain") ;;
    x402_payload <- lift (getitem arguments "x402_payload") ;;
    response <- call (Fewsats.pay_x402_offer x402_payload chain) ;;
    ret (_handle_response response)
  else
    throw (ValueError ("Unknown tool: " ++ name)).

(** The [try] block of [call_tool]: route, then return the result as
    [TextContent]. *)
Definition try_block (name : string) (arguments : dict)
    : prog (list TextContent.t) :=
  result <- route name arguments ;;
  text <- lift (json.dumps 2 (Some str) result) ;;
  ret [TextContent.make "text" text].

(** The dictionary of the [except] block. *)
Definition error_result (e : exn) (name : string) (arguments : dict)
    : pyvalue :=
  PDict [("error", PStr (str_exn e));
         ("tool", PStr name);
         ("arguments", PDict arguments)].

(** The [except Exception as e] block of [call_tool]. *)
Definition except_block (e : exn) (name : string) (arguments : dict)
    : prog (list TextContent.t) :=
  text <- lift (json.dumps 2 None (error_result e name arguments)) ;;
  ret [TextContent.make "text" text].

(** [call_tool]: execute a tool with the given arguments. *)
Definition call_tool (name : string) (arguments : dict)
    : prog (list TextContent.t) :=
  try_except
    (try_block name arguments)
    (fun e => except_block e name arguments).

(** The shape the six branches of the routing share once their arguments
    are extracted: one call, normalised. *)
Definition forward (rq : Fewsats.request) : prog pyvalue :=
  response <- call rq ;;
  ret (_handle_response response).

(** ** The JSON-Schema reading of an [inputSchema] *)

(** The server declares schemas and never evaluates one.  [schema.valid]
    reads a schema the way a JSON-Schema validator does for the keywords
    the catalogue uses ([type], [enum], [required], [properties],
    [items]); it says which arguments violate a schema. *)
Module schema.

Definition has_type (ty : string) (v : pyvalue) : bool :=
  match v with
  | PNone => (ty =? "null")%string
  | PBool _ => (ty =? "boolean")%string
  | PInt _ => ((ty =? "number") || (ty =? "integer"))%string
  | PFloat _ => (ty =? "number")%string
  | PStr _ => (ty =? "string")%string
  | PList _ => (ty =? "array")%string
  | PTuple _ => (ty =? "array")%string
  | PDict _ => (ty =? "object")%string
  | PObject _ => false
  end.

(** Equality of two scalars, as [enum] compares them. *)
Definition scalar_eqb (a b : pyvalue) : bool :=
  match a, b with
  | PNone, PNone => true
  | PBool x, PBool y => Bool.eqb x y
  | PInt x, PInt y => Z.eqb x y
  | PStr x, PStr y => String.eqb x y
  | _, _ => false
  end.

Definition has_key (d : dict) (k : pyvalue) : bool :=
  match k with
  | PStr key => match lookup key d with Some _ => true | None => false end
  | _ => true
  end.

Fixpoint valid (sch : pyvalue) (v : pyvalue) {struct v} : bool :=
  match sch with
  | PDict s =>
      match lookup "type" s with
      | Some (PStr ty) => has_type ty v
      | _ => true
      end
      && match lookup "enum" s with
         | Some (PList allowed) => existsb (scalar_eqb v) allowed
         | _ => true
         end
      && match v with
         | PDict entries =>
             match lookup "required" s with
             | Some (PList keys) => forallb (has_key entries) keys
             | _ => true
             end
             && match lookup "properties" s with
                | Some (PDict props) =>
                    forallb (fun kv : string * pyvalue =>
                               let (k, v') := kv in
                               match lookup k props with
                               | Some sub => valid sub v'
                               | None => true
                               end) entries
                | _ => true
                end
         | PList items =>
             match lookup "items" s with
             | Some sub => forallb (valid sub) items
             | None => true
             end
         | _ => true
         end
  | _ => true
  end.

End schema.

(** The descriptor [list_tools] gives for a name. *)
Definition descriptor (name : string) : option Tool.t :=
  find (fun t => (Tool.name t =? name)%string) list_tools.

Definition strings_of (l : list pyvalue) : list string :=
  flat_map (fun v => match v with PStr s => [s] | _ => [] end) l.

(** The top-level [required] list of the [inputSchema] of a tool; empty
    for a name without descriptor or a schema without the list. *)
Definition required_keys (name : string) : list string :=
  match descriptor name with
  | Some t =>
      match Tool.inputSchema t with
      | PDict s =>
          match lookup "required" s with
          | Some (PList keys) => strings_of keys
          | _ => []
          end
      | _ => []
      end
  | None => []
  end.

(** ** The handler the server registers *)

(** What the registered handler answers: the content and the error
    flag. *)
Module CallToolResult.
Record t : Type := make {
  content : list TextContent.t;
  isError : bool
}.
End CallToolResult.

(** Modelled from the spec: the validation of the arguments against the
    [inputSchema] of the invoked tool before dispatch (the spec's
    "validated against the matching ToolDescriptor.inputSchema before
    dispatch").  The source leaves it to the decorator of line 182,
    [@self.server.call_tool()] of the [mcp] package with its
    [validate_input] at the default, whose code is not under [src/].  The
    handler the decorator registers looks the tool up in what
    [list_tools] returns; arguments that violate the schema of the tool
    are answered with an error result and [call_tool] is not called;
    otherwise the handler returns the content [call_tool] returns, or an
    error result with [str(e)] should [call_tool] raise [e].  A name
    [list_tools] does not list is not validated.  [validation_error]
    gives the text of the validator for a violation. *)
Definition server_call_tool (validation_error : Tool.t -> dict -> string)
    (name : string) (arguments : dict) : prog CallToolResult.t :=
  let dispatch :=
    try_except
      (content <- call_tool name arguments ;;
       ret (CallToolResult.make content false))
      (fun e =>
         ret (CallToolResult.make [TextContent.make "text" (str_exn e)] true))
  in
  match descriptor name with
  | Some tool =>
      if schema.valid (Tool.inputSchema tool) (PDict arguments)
      then dispatch
      else
        ret (CallToolResult.make
               [TextContent.make "text" (validation_error tool arguments)]
               true)
  | None => dispatch
  end.

(** ** The output envelope *)

(** The list [call_tool] returns in its [except] block: one text item,
    the rendering of [{error, tool, arguments}]. *)
Definition error_envelope (error tool : string) (arguments : dict)
    (out : list TextContent.t) : Prop :=
  exists text,
    json.dumps 2 None
      (PDict [("error", PStr error); ("tool", PStr tool);
              ("arguments", PDict arguments)]) = ok text
    /\ out = [TextContent.make "text" text].

(** The list [call_tool] returns at the end of its [try] block: one text
    item, the rendering of the normalised result. *)
Definition success_envelope (result : pyvalue) (out : list TextContent.t)
    : Prop :=
  exists text,
    json.dumps 2 (Some str) result = ok text
    /\ out = [TextContent.make "text" text].

(** ** Vocabulary of the properties *)

(** What the encoder without [default=] gives, against whether the value
    is serializable: a text exactly when it is, [TypeError] when it is
    not. *)
Definition classified (r : result string) (serializable : bool) : Prop :=
  match r with
  | inr _ => serializable = true
  | inl (TypeError _) => serializable = false
  | inl _ => False
  end.

(** [item] is the envelope of one invocation against one client: the
    error envelope of the exception the routing raised, no request being
    made; or, the routing having made its request, the error envelope of
    the exception the client raised, or the success envelope of the
    response the client returned. *)
Definition envelope_of_invocation {State : Type}
    (backend : Fewsats.request -> State -> result Response.t * State)
    (s : State) (name : string) (arguments : dict) (item : TextContent.t)
    : Prop :=
  (exists e,
      route name arguments = throw e
      /\ requests_of backend (call_tool name arguments) s = []
      /\ error_envelope (str_exn e) name arguments [item])
  \/ (exists rq e,
         route name arguments = forward rq
         /\ fst (backend rq s) = raise e
         /\ requests_of backend (call_tool name arguments) s = [rq]
         /\ error_envelope (str_exn e) name arguments [item])
  \/ (exists rq response,
         route name arguments = forward rq
         /\ fst (backend rq s) = ok response
         /\ requests_of backend (call_tool name arguments) s = [rq]
         /\ success_envelope (_handle_response response) [item]).

(** The six names, in the order of the catalogue. *)
Definition tool_names : list string :=
  ["balance"; "payment_methods"; "billing_info"; "pay_offer";
   "payment_info"; "create_x402_payment_header"].

(** The number of descriptors of the catalogue with a given name. *)
Definition descriptors_named (name : string) : nat :=
  List.length (filter (fun t => (Tool.name t =? name)%string) list_tools).

(** The first key of a list that a dictionary lacks. *)
Fixpoint first_missing (keys : list string) (d : dict) : option string :=
  match keys with
  | [] => None
  | k :: keys' =>
      match lookup k d with
      | Some _ => first_missing keys' d
      | None => Some k
      end
  end.

(** Two mappings agree on a list of keys. *)
Definition agree_on (keys : list string) (a b : dict) : Prop :=
  forall k, In k keys -> lookup k a = lookup k b.

(** ** Sample clients and invocations *)

(** A client whose every operation raises. *)
Definition failing_backend (rq : Fewsats.request) (s : unit)
    : result Response.t * unit :=
  (raise (OtherError "connection refused"), s).

(** The body [{"balance": 100}]. *)
Definition balance_body : string :=
  "{" ++ json.dquote ++ "balance" ++ json.dquote ++ ": 100}".

Definition balance_response : Response.t :=
  Response.make 200 (ok (PDict [("balance", PInt 100)])) balance_body.

(** A client that counts its calls and answers each with
    [balance_response]. *)
Definition counting_backend (rq : Fewsats.request) (s : nat)
    : result Response.t * nat :=
  (ok balance_response, Datatypes.S s).

(** A response whose parsed body holds a value [json] has no encoding
    for. *)
Definition opaque_backend (rq : Fewsats.request) (s : unit)
    : result Response.t * unit :=
  (ok (Response.make 200
         (ok (PDict [("created", PObject (mk_pyobject "datetime" "2025-01-01 00:00:00"))]))
         ""), s).

(** The arguments of the three tools that take some. *)
Definition sample_arguments : dict :=
  [("chain", PStr "base");
   ("x402_payload", PDict [("accepts", PList []); ("x402Version", PInt 1)]);
   ("offer_id", PStr "offer_1");
   ("l402_offer", PDict [("version", PStr "0.2.2")]);
   ("pid", PStr "abc")].

Definition x402_payload_sample : pyvalue :=
  PDict [("accepts",
          PList [PDict [("asset", PStr "0x.."); ("network", PStr "base");
                        ("payTo", PStr "0x..");
                        ("resource", PStr "https://x")]]);
         ("x402Version", PInt 1)].


Definition good_chain_arguments : dict :=
  [("chain", PStr "base"); ("x402_payload", x402_payload_sample)].



From Stdlib Require DecimalPos DecimalZ.

(** ** [main] *)

(** What a statement of [main] may raise: an interrupt, an instance of
    [Exception], or another [BaseException] (named by its class). *)
Inductive thrown : Type :=
| KeyboardInterrupt
| Exception (e : exn)
| BaseException (class : string).

(** What [main] does, in order: a line printed on the standard output or
    on the standard error (the UTF-8 bytes of the line), the construction
    [FewsatsMCPServer()], the call [asyncio.run(server.run())]. *)
Inductive event : Type :=
| print (line : string)
| print_stderr (line : string)
| FewsatsMCPServer_init
| asyncio_run.

(** How [main] ends: it returns, it calls [sys.exit], or an exception
    leaves it. *)
Inductive ending : Type :=
| returns
| sys_exit (code : Z)
| propagates (t : thrown).

(** What the surroundings of [main] decide: whether the construction of
    the server raises, and whether its run raises or comes back. *)
Record World : Type := mk_World {
  init_raises : option thrown;
  run_raises : option thrown
}.

(** The lines [main] prints for [--help]. *)
Definition usage : list string :=
  ["Fewsats MCP Server";
   "A Model Context Protocol server for Fewsats payment integration.";
   "";
   "Usage:";
   "  python -m fewsats_mcp.server";
   "  or";
   "  fewsats-mcp";
   "";
   "This server provides 6 tools for managing:";
   "  • Wallet Management (balance, payment methods, billing info)";
   "  • Payment Processing (pay offers, payment info)";
   "  • X402 Protocol Support (create payment headers)";
   "";
   "The server communicates via stdin/stdout using the MCP protocol."].

(** [main]: the events of the process and its ending.  [sys.argv[1]] is
    read only when [len(sys.argv) > 1]. *)
Definition main (argv : list string) (w : World) : list event * ending :=
  if (Nat.ltb 1 (List.length argv) && (nth 1 argv "" =? "--help")%string)%bool
  then (map print usage, returns)
  else
    match init_raises w with
    | Some t => ([FewsatsMCPServer_init], propagates t)
    | None =>
        match run_raises w with
        | None => ([FewsatsMCPServer_init; asyncio_run], returns)
        | Some KeyboardInterrupt =>
            ([FewsatsMCPServer_init; asyncio_run;
              print_stderr "\nServer shutting down..."], returns)
        | Some (Exception e) =>
            ([FewsatsMCPServer_init; asyncio_run;
              print_stderr ("Server error: " ++ str_exn e)], sys_exit 1)
        | Some (BaseException class) =>
            ([FewsatsMCPServer_init; asyncio_run],
             propagates (BaseException class))
        end
    end.

(** The lines an event list leaves on the standard output. *)
Definition stdout_of (events : list event) : list string :=
  flat_map (fun ev => match ev with print line => [line] | _ => [] end)
    events.

(** The lines an event list leaves on the standard error. *)
Definition stderr_of (events : list event) : list string :=
  flat_map (fun ev => match ev with print_stderr line => [line] | _ => [] end)
    events.

(** ** Texts and decoded values *)

(** Every character of a text satisfies [p]. *)
Fixpoint all_chars (p : ascii -> bool) (s : string) : bool :=
  match s with
  | EmptyString => true
  | String c s' => p c && all_chars p s'
  end.

(** Some character of a text satisfies [p]. *)
Fixpoint some_char (p : ascii -> bool) (s : string) : bool :=
  match s with
  | EmptyString => false
  | String c s' => p c || some_char p s'
  end.

(** A printable ASCII character, from the space to the tilde. *)
Definition printable (c : ascii) : bool :=
  (Nat.leb 32 (nat_of_ascii c) && Nat.leb (nat_of_ascii c) 126)%bool.

Definition printable_or_lf (c : ascii) : bool :=
  (printable c || Ascii.eqb c "010")%bool.

Definition digit (c : ascii) : bool :=
  (Nat.leb 48 (nat_of_ascii c) && Nat.leb (nat_of_ascii c) 57)%bool.

Definition digit_or_minus (c : ascii) : bool :=
  (digit c || Ascii.eqb c "-")%bool.

(** The characters of the [repr] of a finite float. *)
Definition float_char (c : ascii) : bool :=
  (digit c || Ascii.eqb c "-" || Ascii.eqb c "+" || Ascii.eqb c "."
   || Ascii.eqb c "e")%bool.

(** The texts [json] prints for a float: [NaN], [Infinity], [-Infinity],
    or the [repr] of a finite float, made of digits, signs, a point and an
    exponent mark, and holding a point or an exponent mark. *)
Definition float_text (repr : string) : bool :=
  ((repr =? "NaN")%string || (repr =? "Infinity")%string
   || (repr =? "-Infinity")%string
   || (all_chars float_char repr
       && some_char (fun c => Ascii.eqb c "." || Ascii.eqb c "e") repr))%bool.

(** Every float inside a value is carried as a text [json] prints for a
    float. *)
Fixpoint floats_ok (v : pyvalue) : bool :=
  match v with
  | PFloat repr => float_text repr
  | PList items => forallb floats_ok items
  | PTuple items => forallb floats_ok items
  | PDict entries =>
      forallb (fun kv : string * pyvalue => floats_ok (snd kv)) entries
  | _ => true
  end.

(** The values a JSON text decodes to, as [json.loads] builds them: no
    tuple and no instance of another class. *)
Fixpoint wire (v : pyvalue) : bool :=
  match v with
  | PNone => true
  | PBool _ => true
  | PInt _ => true
  | PFloat repr => float_text repr
  | PStr _ => true
  | PList items => forallb wire items
  | PTuple _ => false
  | PDict entries =>
      forallb (fun kv : string * pyvalue => wire (snd kv)) entries
  | PObject _ => false
  end.

(** A rest that begins where a value ends inside a container: nothing, a
    comma or a line feed. *)
Definition delimited (r : string) : bool :=
  match r with
  | EmptyString => true
  | String c _ => (Ascii.eqb c "," || Ascii.eqb c "010")%bool
  end.

(** A character of a literal ([null], [true], [false], a number): none
    of those that delimit or open another value. *)
Definition token_char (c : ascii) : bool :=
  negb (Ascii.eqb c "," || Ascii.eqb c "010" || Ascii.eqb c "034"
        || Ascii.eqb c "[" || Ascii.eqb c "{")%bool.

(** A client whose parsed bodies hold floats as [json] prints them. *)
Definition floats_ok_backend {State : Type}
    (backend : Fewsats.request -> State -> result Response.t * State)
    : Prop :=
  forall rq s response s' parsed,
    backend rq s = (ok response, s') ->
    Response.json response = ok parsed ->
    floats_ok parsed = true.

(** ['{0:04x}'.format(n)], for [n] below [0x10000]. *)
Definition hex4 (n : N) : string :=
  String (json.hex_digit (N.to_nat (N.shiftr n 12 mod 16)))
    (String (json.hex_digit (N.to_nat (N.shiftr n 8 mod 16)))
       (String (json.hex_digit (N.to_nat (N.shiftr n 4 mod 16)))
          (String (json.hex_digit (N.to_nat (n mod 16))) EmptyString)))%N.

(** [py_encode_basestring_ascii] at one code point of a Python string,
    whatever the code point: the table [ESCAPE_DCT], the character itself
    from the space to the tilde, [\uXXXX] below [0x10000], and above it
    the two [\uXXXX] of a surrogate pair.  [json.escape_char] is this
    function on the code points below 256, the ones a [string] of this
    development holds. *)
Definition escape_code_point (n : N) : string :=
  (if n =? 34 then json.backslash ++ json.dquote
   else if n =? 92 then json.backslash ++ json.backslash
   else if n =? 10 then json.backslash ++ "n"
   else if n =? 13 then json.backslash ++ "r"
   else if n =? 9 then json.backslash ++ "t"
   else if n =? 8 then json.backslash ++ "b"
   else if n =? 12 then json.backslash ++ "f"
   else if (32 <=? n) && (n <=? 126) then String (ascii_of_N n) EmptyString
   else if n <? 65536 then json.backslash ++ "u" ++ hex4 n
   else
     let m := n - 65536 in
     json.backslash ++ "u"
       ++ hex4 (N.lor 55296 (N.land (N.shiftr m 10) 1023))
       ++ json.backslash ++ "u" ++ hex4 (N.lor 56320 (N.land m 1023)))%N.

(** The escaping of a Python string given by its code points. *)
Fixpoint escape_code_points (points : list N) : string :=
  match points with
  | [] => EmptyString
  | n :: points' => escape_code_point n ++ escape_code_points points'
  end.

(** The code points of a [string]. *)
Fixpoint code_points (s : string) : list N :=
  match s with
  | EmptyString => []
  | String c s' => N_of_ascii c :: code_points s'
  end.

(** Reading back the first character of an escaped text: the inverse of
    [json.escape_char].  A text that opens with a double quote has no
    first character to read: the quote closes the string. *)
Definition hex_value (c : ascii) : nat :=
  let n := nat_of_ascii c in
  if Nat.leb 97 n then (n - 87)%nat else (n - 48)%nat.

Definition unescape_head (s : string) : option (ascii * string) :=
  match s with
  | EmptyString => None
  | String c rest =>
      if Ascii.eqb c "034" then None
      else if Ascii.eqb c "092" then
        match rest with
        | String x rest' =>
            if Ascii.eqb x "034" then Some ("034"%char, rest')
            else if Ascii.eqb x "092" then Some ("092"%char, rest')
            else if Ascii.eqb x "n" then Some ("010"%char, rest')
            else if Ascii.eqb x "r" then Some ("013"%char, rest')
            else if Ascii.eqb x "t" then Some ("009"%char, rest')
            else if Ascii.eqb x "b" then Some ("008"%char, rest')
            else if Ascii.eqb x "f" then Some ("012"%char, rest')
            else
              match rest' with
              | String _ (String _ (String h (String l rest''))) =>
                  Some (ascii_of_nat (16 * hex_value h + hex_value l), rest'')
              | _ => None
              end
        | EmptyString => None
        end
      else Some (c, rest)
  end.

(** A literal: a value whose text is a token. *)
Definition is_token (v : pyvalue) : bool :=
  match v with
  | PNone | PBool _ | PInt _ | PFloat _ => true
  | _ => false
  end.

(** The character that opens the text of a string, a list or a
    dictionary. *)
Definition opener (v : pyvalue) : ascii :=
  match v with
  | PStr _ => "034"
  | PDict _ => "{"
  | _ => "["
  end.

(** The parsed body of a response, when there is one, is a decoded
    value. *)
Definition wire_body (response : Response.t) : Prop :=
  forall parsed, Response.json response = ok parsed -> wire parsed = true.

(** The text of an item [a], followed by a delimited rest, determines
    [a] among the items [good] holds of, and the rest. *)
Definition item_free (A : Type) (f : A -> result string) (good : A -> Prop)
    (a : A) : Prop :=
  forall b ca cb r1 r2,
    good b -> f a = ok ca -> f b = ok cb ->
    delimited r1 = true -> delimited r2 = true ->
    ca ++ r1 = cb ++ r2 ->
    a = b /\ r1 = r2.

(** The descriptor of [create_x402_payment_header]. *)
Definition x402_descriptor : Tool.t :=
  nth 5 list_tools (Tool.make "" "" PNone).



(** * Properties *)

(** ** Induction on values *)

Section pyvalue_induction.

Variable P : pyvalue -> Prop.

Hypothesis P_none : P PNone.
Hypothesis P_bool : forall b, P (PBool b).
Hypothesis P_int : forall n, P (PInt n).
Hypothesis P_float : forall repr, P (PFloat repr).
Hypothesis P_str : forall s, P (PStr s).
Hypothesis P_list : forall items, Forall P items -> P (PList items).
Hypothesis P_tuple : forall items, Forall P items -> P (PTuple items).
Hypothesis P_dict :
  forall entries, Forall (fun kv => P (snd kv)) entries -> P (PDict entries).
Hypothesis P_object : forall o, P (PObject o).

Fixpoint pyvalue_nested_ind (v : pyvalue) : P v :=
  match v with
  | PNone => P_none
  | PBool b => P_bool b
  | PInt n => P_int n
  | PFloat repr => P_float repr
  | PStr s => P_str s
  | PList items =>
      P_list items
        ((fix all (l : list pyvalue) : Forall P l :=
            match l with
            | [] => Forall_nil P
            | x :: l' => Forall_cons x (pyvalue_nested_ind x) (all l')
            end) items)
  | PTuple items =>
      P_tuple items
        ((fix all (l : list pyvalue) : Forall P l :=
            match l with
            | [] => Forall_nil P
            | x :: l' => Forall_cons x (pyvalue_nested_ind x) (all l')
            end) items)
  | PDict entries =>
      P_dict entries
        ((fix all (l : list (string * pyvalue))
            : Forall (fun kv => P (snd kv)) l :=
            match l with
            | [] => Forall_nil _
            | kv :: l' =>
                Forall_cons kv (pyvalue_nested_ind (snd kv)) (all l')
            end) entries)
  | PObject o => P_object o
  end.

End pyvalue_induction.

(** ** The encoder *)

Lemma rmap_ok {A B} (f : A -> result B) (l : list A) :
  Forall (fun a => exists b, f a = ok b) l ->
  exists bs, rmap f l = ok bs.
Proof.
  induction 1 as [|a l [b Hb] _ [bs Hbs]]; cbn.
  - now exists [].
  - rewrite Hb; cbn. rewrite Hbs; cbn. now exists (b :: bs).
Qed.

Lemma rmap_length {A B} (f : A -> result B) (l : list A) bs :
  rmap f l = ok bs -> List.length bs = List.length l.
Proof.
  revert bs; induction l as [|a l IH]; cbn; intros bs H.
  - now inversion H.
  - destruct (f a) as [e|b]; cbn in H; [discriminate|].
    destruct (rmap f l) as [e|bs']; cbn in H; [discriminate|].
    inversion H; subst; cbn. now rewrite (IH bs' eq_refl).
Qed.

Section EncoderEquations.

Variable indent : nat.
Variable default : option (pyobject -> string).

Local Abbreviation enc := (json.iterencode indent default).

(** The encoding of one [key: value] entry of a dictionary. *)
Local Abbreviation encode_entry level :=
  (fun kv : string * pyvalue =>
     let (k, v) := kv in
     rbind (enc v (S level)) (fun c => ok (json.encode_str k ++ ": " ++ c))).

Lemma iterencode_list v items level :
  enc (PList (v :: items)) level
  = rbind (rmap (fun x => enc x (S level)) (v :: items))
      (fun chunks => ok (json.bracket indent "[" "]" level chunks)).
Proof. reflexivity. Qed.

Lemma iterencode_tuple v items level :
  enc (PTuple (v :: items)) level
  = rbind (rmap (fun x => enc x (S level)) (v :: items))
      (fun chunks => ok (json.bracket indent "[" "]" level chunks)).
Proof. reflexivity. Qed.

Lemma iterencode_dict kv entries level :
  enc (PDict (kv :: entries)) level
  = rbind (rmap (encode_entry level) (kv :: entries))
      (fun chunks => ok (json.bracket indent "{" "}" level chunks)).
Proof. reflexivity. Qed.

(** A container whose items all have a text has one. *)
Lemma iterencode_items_ok (items : list pyvalue) level :
  Forall (fun v => forall l, exists text, enc v l = ok text) items ->
  exists chunks, rmap (fun x => enc x (S level)) items = ok chunks.
Proof.
  intros H. apply rmap_ok.
  eapply Forall_impl; [|exact H]. intros v Hv; apply Hv.
Qed.

Lemma iterencode_entries_ok (entries : list (string * pyvalue)) level :
  Forall (fun kv => forall l, exists text, enc (snd kv) l = ok text)
    entries ->
  exists chunks, rmap (encode_entry level) entries = ok chunks.
Proof.
  intros H. apply rmap_ok.
  eapply Forall_impl; [|exact H]. intros [k v] Hv; cbn in *.
  destruct (Hv (S level)) as [c Hc]. rewrite Hc; cbn. eexists; reflexivity.
Qed.

End EncoderEquations.

(** The three container cases of a proof that the encoder has a text:
    [IH] gives a text for every item. *)
Ltac encode_items items level IH :=
  destruct items as [|? ?]; [cbn; eexists; reflexivity|];
  destruct (@iterencode_items_ok _ _ _ level IH) as [? Hchunks];
  first [rewrite iterencode_list | rewrite iterencode_tuple];
  rewrite Hchunks; cbn; eexists; reflexivity.

Ltac encode_entries entries level IH :=
  destruct entries as [|? ?]; [cbn; eexists; reflexivity|];
  destruct (@iterencode_entries_ok _ _ _ level IH) as [? Hchunks];
  rewrite iterencode_dict, Hchunks; cbn; eexists; reflexivity.

(** With [default=str] the encoder has a text for every value. *)
Lemma iterencode_default_total indent f (o : pyvalue) :
  forall level, exists text, json.iterencode indent (Some f) o level = ok text.
Proof.
  induction o as [ | [|] | n | repr | s | items IH | items IH | entries IH | o ]
    using pyvalue_nested_ind; intros level;
    try (cbn; eexists; reflexivity);
    [ encode_items items level IH
    | encode_items items level IH
    | encode_entries entries level IH ].
Qed.

Lemma Forall_forallb_impl {A} (p : A -> bool) (Q : A -> Prop) (l : list A) :
  Forall (fun a => p a = true -> Q a) l -> forallb p l = true -> Forall Q l.
Proof.
  induction 1 as [|a l Ha _ IH]; cbn; intros Hp; [constructor|].
  apply andb_true_iff in Hp as [Hpa Hpl]. constructor; auto.
Qed.

(** Without [default=] the encoder has a text for every serializable
    value. *)
Lemma iterencode_serializable indent (o : pyvalue) :
  json.serializable o = true ->
  forall level, exists text, json.iterencode indent None o level = ok text.
Proof.
  induction o as [ | [|] | n | repr | s | items IH | items IH | entries IH | o ]
    using pyvalue_nested_ind; intros Hs level;
    try (cbn; eexists; reflexivity); try discriminate;
    cbn in Hs; pose proof (Forall_forallb_impl _ _ _ IH Hs) as IH';
    [ encode_items items level IH'
    | encode_items items level IH'
    | encode_entries entries level IH' ].
Qed.

Lemma rmap_classified {A} (f : A -> result string) (p : A -> bool)
    (l : list A) :
  Forall (fun a => classified (f a) (p a)) l ->
  match rmap f l with
  | inr _ => forallb p l = true
  | inl (TypeError _) => forallb p l = false
  | inl _ => False
  end.
Proof.
  induction 1 as [|a l Ha _ IH]; cbn; [reflexivity|].
  unfold classified in Ha.
  destruct (f a) as [[]|b]; cbn; try contradiction;
    rewrite Ha; cbn; [reflexivity|].
  destruct (rmap f l) as [[]|bs]; cbn; try contradiction; exact IH.
Qed.

(** Without [default=] the encoder has a text exactly for the
    serializable values, and raises [TypeError] for the others. *)
Lemma iterencode_classified indent (o : pyvalue) :
  forall level,
    classified (json.iterencode indent None o level) (json.serializable o).
Proof.
  induction o as [ | [|] | n | repr | s | items IH | items IH | entries IH | o ]
    using pyvalue_nested_ind; intros level; try reflexivity.
  - destruct items as [|v items]; [reflexivity|].
    rewrite iterencode_list.
    pose proof (rmap_classified
                  (fun x => json.iterencode indent None x (S level))
                  json.serializable (v :: items)) as H.
    destruct (rmap _ (v :: items)) as [[]|cs]; cbn; apply H;
      (eapply Forall_impl; [|exact IH]); intros x Hx; apply Hx.
  - destruct items as [|v items]; [reflexivity|].
    rewrite iterencode_tuple.
    pose proof (rmap_classified
                  (fun x => json.iterencode indent None x (S level))
                  json.serializable (v :: items)) as H.
    destruct (rmap _ (v :: items)) as [[]|cs]; cbn; apply H;
      (eapply Forall_impl; [|exact IH]); intros x Hx; apply Hx.
  - destruct entries as [|kv entries]; [reflexivity|].
    rewrite iterencode_dict.
    pose proof (rmap_classified
                  (fun kv : string * pyvalue =>
                     let (k, v) := kv in
                     rbind (json.iterencode indent None v (S level))
                       (fun c => ok (json.encode_str k ++ ": " ++ c)))
                  (fun kv => json.serializable (snd kv))
                  (kv :: entries)) as H.
    destruct (rmap _ (kv :: entries)) as [[]|cs]; cbn; apply H;
      (eapply Forall_impl; [|exact IH]); intros [k x] Hx; cbn in *;
      specialize (Hx (S level)); unfold classified in *;
      destruct (json.iterencode indent None x (S level)) as [[]|c];
      cbn; auto.
Qed.

(** Without [default=] an instance anywhere in the value makes the
    encoder raise [TypeError]. *)
Lemma dumps_unserializable indent (o : pyvalue) :
  json.serializable o = false ->
  exists msg, json.dumps indent None o = raise (TypeError msg).
Proof.
  intros Hs. pose proof (iterencode_classified indent o 0%nat) as H.
  unfold json.dumps, classified in *.
  destruct (json.iterencode indent None o 0) as [[]|text];
    try contradiction; try congruence.
  eexists; reflexivity.
Qed.

Lemma dumps_serializable indent (o : pyvalue) :
  json.serializable o = true ->
  exists text, json.dumps indent None o = ok text.
Proof. intros Hs. now apply iterencode_serializable. Qed.

Lemma dumps_default_total indent f (o : pyvalue) :
  exists text, json.dumps indent (Some f) o = ok text.
Proof. apply iterencode_default_total. Qed.

(** ** Running programs *)

Section RunLemmas.

Variable State : Type.
Variable backend : Fewsats.request -> State -> result Response.t * State.

Lemma run_bind {A B} (p : prog A) (f : A -> prog B) (s : State) :
  run backend (bind p f) s
  = let '(requests, s', r) := run backend p s in
    match r with
    | inl e => (requests, s', inl e)
    | inr a =>
        let '(requests', s'', out) := run backend (f a) s' in
        ((requests ++ requests')%list, s'', out)
    end.
Proof.
  revert s; induction p as [[e|a]|rq k IH]; intros s; cbn.
  - reflexivity.
  - now destruct (run backend (f a) s) as [[requests s'] out].
  - destruct (backend rq s) as [r s']. rewrite IH.
    destruct (run backend (k r) s') as [[requests s''] [e|a]]; [reflexivity|].
    now destruct (run backend (f a) s'') as [[requests' s3] out].
Qed.

Lemma run_try_except {A} (p : prog A) (h : exn -> prog A) (s : State) :
  run backend (try_except p h) s
  = let '(requests, s', r) := run backend p s in
    match r with
    | inr a => (requests, s', inr a)
    | inl e =>
        let '(requests', s'', out) := run backend (h e) s' in
        ((requests ++ requests')%list, s'', out)
    end.
Proof.
  revert s; induction p as [[e|a]|rq k IH]; intros s; cbn.
  - now destruct (run backend (h e) s) as [[requests s'] out].
  - reflexivity.
  - destruct (backend rq s) as [r s']. rewrite IH.
    destruct (run backend (k r) s') as [[requests s''] [e|a]]; [|reflexivity].
    now destruct (run backend (h e) s'') as [[requests' s3] out].
Qed.

Lemma run_lift {A} (r : result A) (s : State) :
  run backend (lift r) s = ([], s, r).
Proof. reflexivity. Qed.

End RunLemmas.

(** ** The dispatcher *)

(** The routing raises before any call, or makes one call. *)
Lemma route_cases (name : string) (arguments : dict) :
  (exists e, route name arguments = throw e)
  \/ (exists rq, route name arguments = forward rq).
Proof.
  unfold route, getitem.
  repeat match goal with
         | |- context [if ?b then _ else _] => destruct b
         | |- context [lookup ?k ?d] => destruct (lookup k d)
         end; cbn;
    solve [left; eexists; reflexivity | right; eexists; reflexivity].
Qed.

Section Dispatch.

Variable State : Type.
Variable backend : Fewsats.request -> State -> result Response.t * State.

Variable name : string.
Variable arguments : dict.

(** The [except] block calls nothing and, on serializable arguments,
    returns the error envelope. *)
Lemma run_except_block (e : exn) (s : State) :
  json.serializable (PDict arguments) = true ->
  exists text,
    json.dumps 2 None (error_result e name arguments) = ok text
    /\ run backend (except_block e name arguments) s
       = ([], s, ok [TextContent.make "text" text]).
Proof.
  intros Hs.
  destruct (dumps_serializable 2 (error_result e name arguments))
    as [text Ht].
  { cbn in *. now rewrite Hs. }
  exists text; split; [exact Ht|].
  unfold except_block. rewrite Ht. reflexivity.
Qed.

(** The run of the [try] block when the routing raises. *)
Lemma run_try_block_throw (e : exn) (s : State) :
  route name arguments = throw e ->
  run backend (try_block name arguments) s = ([], s, raise e).
Proof. intros H. unfold try_block. rewrite H. reflexivity. Qed.

(** The run of the [try] block when the routing makes a call. *)
Lemma run_try_block_forward (rq : Fewsats.request) (s : State) :
  route name arguments = forward rq ->
  run backend (try_block name arguments) s
  = ([rq], snd (backend rq s),
     match fst (backend rq s) with
     | inl e => raise e
     | inr response =>
         rbind (json.dumps 2 (Some str) (_handle_response response))
           (fun text => ok [TextContent.make "text" text])
     end).
Proof.
  intros H. unfold try_block. rewrite H. cbn.
  destruct (backend rq s) as [[e|response] s']; cbn; [reflexivity|].
  now destruct (json.dumps 2 (Some str) (_handle_response response)).
Qed.

(** What the [try] block returns is a success envelope; it holds one
    call at most. *)
Lemma try_block_outcome (s : State) :
  match run backend (try_block name arguments) s with
  | (requests, _, inr out) =>
      exists rq response,
        requests = [rq]
        /\ fst (backend rq s) = ok response
        /\ success_envelope (_handle_response response) out
  | (requests, _, inl e) => (List.length requests <= 1)%nat
  end.
Proof.
  destruct (route_cases name arguments) as [[e H]|[rq H]].
  - rewrite (run_try_block_throw e s H). cbn. lia.
  - rewrite (run_try_block_forward rq s H).
    destruct (fst (backend rq s)) as [e|response] eqn:Hr; cbn; [lia|].
    destruct (dumps_default_total 2 str (_handle_response response))
      as [text Ht].
    rewrite Ht; cbn. exists rq, response.
    split; [reflexivity|]. split; [exact Hr|].
    exists text. now split.
Qed.

(** On serializable arguments [call_tool] returns one text item: what
    the [try] block returned, or the error envelope of what it
    raised. *)
Lemma call_tool_outcome (s : State) :
  json.serializable (PDict arguments) = true ->
  exists text,
    outcome_of backend (call_tool name arguments) s
    = ok [TextContent.make "text" text]
    /\ match outcome_of backend (try_block name arguments) s with
       | inr out => out = [TextContent.make "text" text]
       | inl e => json.dumps 2 None (error_result e name arguments) = ok text
       end.
Proof.
  intros Hs. unfold outcome_of, call_tool. rewrite run_try_except.
  pose proof (try_block_outcome s) as Hout.
  destruct (run backend (try_block name arguments) s)
    as [[requests s'] [e|out]]; cbv beta iota.
  - destruct (run_except_block e s' Hs) as [text [Ht Hrun]].
    rewrite Hrun. cbn. now exists text.
  - destruct Hout as (rq & response & _ & _ & text & _ & ->).
    cbn. now exists text.
Qed.

End Dispatch.

(** ** The claims *)

(** C1. For every tool name and every arguments mapping (a mapping of
    JSON values, as a request carries it: [json.serializable]),
    [call_tool] returns and raises nothing, whatever the client does: it
    returns what its [try] block returned or, when the [try] block raised
    [e] (in the lookup of the name, in the extraction of an argument or in
    the call of the client), the error envelope
    [{error: str(e), tool: name, arguments: arguments}]. *)
Theorem call_tool_never_raises (name : string) (arguments : dict) :
  json.serializable (PDict arguments) = true ->
  forall (State : Type)
         (backend : Fewsats.request -> State -> result Response.t * State)
         (s : State),
  exists text,
    outcome_of backend (call_tool name arguments) s
    = ok [TextContent.make "text" text]
    /\ match outcome_of backend (try_block name arguments) s with
       | inr out => out = [TextContent.make "text" text]
       | inl e =>
           error_envelope (str_exn e) name arguments
             [TextContent.make "text" text]
       end.
Proof.
  intros Hs State backend s.
  destruct (@call_tool_outcome State backend name arguments s Hs) as [text [Hout Htry]].
  exists text; split; [exact Hout|].
  destruct (outcome_of backend (try_block name arguments) s) as [e|out];
    [|exact Htry].
  exists text. now split.
Qed.

(** [payment_info] with [{"pid": "abc"}] against a client that raises. *)
Lemma call_tool_never_raises_witness :
  exists text,
    outcome_of failing_backend
      (call_tool "payment_info" [("pid", PStr "abc")]) tt
    = ok [TextContent.make "text" text]
    /\ error_envelope "connection refused" "payment_info"
         [("pid", PStr "abc")] [TextContent.make "text" text].
Proof.
  exact (call_tool_never_raises "payment_info" [("pid", PStr "abc")]
           eq_refl unit failing_backend tt).
Defined.

(** C2. [list_tools] is a constant (it reads no state and calls nothing)
    of exactly six descriptors, named [balance], [payment_methods],
    [billing_info], [pay_offer], [payment_info],
    [create_x402_payment_header] in this order; each name has exactly one
    descriptor, and every description is non-empty. *)
Theorem list_tools_catalogue :
  map Tool.name list_tools = tool_names
  /\ List.length list_tools = 6%nat
  /\ NoDup (map Tool.name list_tools)
  /\ Forall (fun name => descriptors_named name = 1%nat) tool_names
  /\ Forall (fun t => (0 < String.length (Tool.description t))%nat)
       list_tools.
Proof.
  split; [reflexivity|]. split; [reflexivity|].
  split.
  - change (map Tool.name list_tools) with tool_names.
    unfold tool_names.
    repeat (constructor;
            [cbn; intros H; repeat destruct H as [H|H];
             solve [discriminate | contradiction]|]).
    constructor.
  - split; repeat constructor.
Qed.

(** C3. [_handle_response] is total.  For a response of status [s] whose
    [json()] returns [parsed] it yields [(s, parsed)]; for a response of
    status [s] and body [b] whose [json()] raises, whatever it raises, it
    yields [(s, b)].  The body [{"balance": 100}] with status 200 yields
    [(200, {"balance": 100})]; the body [not json] with status 500 yields
    [(500, "not json")]. *)
Theorem handle_response_normalizes :
  (forall s b parsed,
      _handle_response (Response.make s (ok parsed) b) = PTuple [PInt s; parsed])
  /\ (forall s b e,
         _handle_response (Response.make s (raise e) b)
         = PTuple [PInt s; PStr b])
  /\ _handle_response balance_response
     = PTuple [PInt 200; PDict [("balance", PInt 100)]]
  /\ _handle_response
       (Response.make 500
          (raise (ValueError "Expecting value: line 1 column 1 (char 0)"))
          "not json")
     = PTuple [PInt 500; PStr "not json"].
Proof. repeat split. Qed.

(** The routing of a name without descriptor. *)
Lemma route_unknown (name : string) (arguments : dict) :
  ~ In name (map Tool.name list_tools) ->
  route name arguments = throw (ValueError ("Unknown tool: " ++ name)).
Proof.
  intros Hn. unfold route.
  repeat match goal with
         | |- context [(name =? ?k)%string] =>
             destruct (String.eqb_spec name k) as [->|_];
             [exfalso; apply Hn; cbn; tauto|]
         end.
  reflexivity.
Qed.

(** The top-level required keys of the six tools, and of the names
    without descriptor. *)
Lemma required_keys_cases (name : string) :
  (name = "pay_offer" /\ required_keys name = ["offer_id"; "l402_offer"])
  \/ (name = "payment_info" /\ required_keys name = ["pid"])
  \/ (name = "create_x402_payment_header"
      /\ required_keys name = ["chain"; "x402_payload"])
  \/ ((name = "balance" \/ name = "payment_methods" \/ name = "billing_info"
       \/ ~ In name (map Tool.name list_tools))
      /\ required_keys name = []).
Proof.
  unfold required_keys, descriptor, list_tools; cbn [find Tool.name].
  repeat match goal with
         | |- context [(?k =? name)%string] =>
             destruct (String.eqb_spec k name) as [<-|?]
         end; cbn; tauto.
Qed.

(** The run of [call_tool] when the routing raises: no call, the state
    untouched, the error envelope. *)
Lemma run_call_tool_throw (name : string) (arguments : dict) (e : exn) :
  route name arguments = throw e ->
  json.serializable (PDict arguments) = true ->
  forall (State : Type)
         (backend : Fewsats.request -> State -> result Response.t * State)
         (s : State),
  exists out,
    run backend (call_tool name arguments) s = ([], s, ok out)
    /\ error_envelope (str_exn e) name arguments out.
Proof.
  intros Hr Hs State backend s.
  unfold call_tool. rewrite run_try_except,
    (@run_try_block_throw State backend name arguments e s Hr).
  unfold raise; cbv beta iota.
  destruct (@run_except_block State backend name arguments e s Hs)
    as [text [Ht Hrun]].
  rewrite Hrun. exists [TextContent.make "text" text]. split; [reflexivity|].
  exists text. now split.
Qed.

(** Outside the values a request can carry: with an instance among the
    arguments, the encoder of the [except] block, called without
    [default=], raises [TypeError], and so does [call_tool] whenever its
    [try] block raised. *)
Remark run_call_tool_throw_unserializable
    (name : string) (arguments : dict) (e : exn) :
  route name arguments = throw e ->
  json.serializable (PDict arguments) = false ->
  forall (State : Type)
         (backend : Fewsats.request -> State -> result Response.t * State)
         (s : State),
  exists msg,
    run backend (call_tool name arguments) s = ([], s, raise (TypeError msg)).
Proof.
  intros Hr Hs State backend s.
  unfold call_tool. rewrite run_try_except,
    (@run_try_block_throw State backend name arguments e s Hr).
  unfold raise; cbv beta iota.
  destruct (dumps_unserializable 2 (error_result e name arguments))
    as [msg Hm].
  { cbn in *. now rewrite Hs. }
  exists msg. unfold except_block. rewrite Hm. reflexivity.
Qed.

(** C5. For every name that is not one of the six and every arguments
    mapping (of JSON values), [call_tool] returns the error envelope with
    the message [Unknown tool: <name>], the name and the arguments as
    given; no operation of the client is called and its state is
    untouched. *)
Theorem unknown_tool_error_envelope (name : string) (arguments : dict) :
  ~ In name (map Tool.name list_tools) ->
  json.serializable (PDict arguments) = true ->
  forall (State : Type)
         (backend : Fewsats.request -> State -> result Response.t * State)
         (s : State),
  exists out,
    run backend (call_tool name arguments) s = ([], s, ok out)
    /\ error_envelope ("Unknown tool: " ++ name) name arguments out.
Proof.
  intros Hn Hs State backend s.
  exact (run_call_tool_throw name arguments _
           (route_unknown name arguments Hn) Hs State backend s).
Qed.

Lemma not_registered (name : string) :
  forallb (fun t => negb (Tool.name t =? name)%string) list_tools = true ->
  ~ In name (map Tool.name list_tools).
Proof.
  intros H Hin. apply in_map_iff in Hin as [t [Ht Hin]].
  rewrite forallb_forall in H. specialize (H t Hin).
  rewrite <- Ht, String.eqb_refl in H. discriminate.
Qed.

Lemma unknown_tool_error_envelope_witness :
  exists out,
    run counting_backend
      (call_tool "frobnicate" [("offer_id", PStr "a")]) 0%nat
    = ([], 0%nat, ok out)
    /\ error_envelope "Unknown tool: frobnicate" "frobnicate"
         [("offer_id", PStr "a")] out.
Proof.
  exact (unknown_tool_error_envelope "frobnicate" [("offer_id", PStr "a")]
           (not_registered "frobnicate" eq_refl) eq_refl
           nat counting_backend 0%nat).
Defined.

Lemma first_missing_some (keys : list string) (d : dict) (key : string) :
  In key keys -> lookup key d = None ->
  exists k, first_missing keys d = Some k.
Proof.
  induction keys as [|k keys IH]; cbn; [contradiction|].
  intros [->|Hin] Hl.
  - rewrite Hl. eexists; reflexivity.
  - destruct (lookup k d); [now apply IH | eexists; reflexivity].
Qed.

(** The routing raises [KeyError] at the first required key the
    arguments lack. *)
Lemma route_first_missing (name : string) (arguments : dict) (k : string) :
  first_missing (required_keys name) arguments = Some k ->
  route name arguments = throw (KeyError k).
Proof.
  destruct (required_keys_cases name)
    as [[-> ->]|[[-> ->]|[[-> ->]|[_ ->]]]]; cbn; unfold route, getitem; cbn.
  - destruct (lookup "offer_id" arguments); [|now intros [= <-]].
    destruct (lookup "l402_offer" arguments); [discriminate|now intros [= <-]].
  - destruct (lookup "pid" arguments); [discriminate|now intros [= <-]].
  - destruct (lookup "chain" arguments); [|now intros [= <-]].
    destruct (lookup "x402_payload" arguments);
      [discriminate|now intros [= <-]].
  - discriminate.
Qed.

Lemma first_missing_spec (keys : list string) (d : dict) (k : string) :
  first_missing keys d = Some k -> In k keys /\ lookup k d = None.
Proof.
  induction keys as [|k' keys IH]; cbn; [discriminate|].
  destruct (lookup k' d) eqn:Hl.
  - intros H. destruct (IH H). tauto.
  - intros [= <-]. tauto.
Qed.

(** C4. For every tool and every arguments mapping (of JSON values) that
    lacks a key of the top-level [required] list of the tool's
    [inputSchema], [call_tool] returns an error envelope whose [tool] is
    the name invoked and whose [arguments] is the mapping as given; its
    message names a required key the mapping lacks (the first one, as
    [str(KeyError(key))]), and the client is not called. *)
Theorem missing_required_key_error_envelope
    (name : string) (arguments : dict) (key : string) :
  In key (required_keys name) ->
  lookup key arguments = None ->
  json.serializable (PDict arguments) = true ->
  forall (State : Type)
         (backend : Fewsats.request -> State -> result Response.t * State)
         (s : State),
  exists missing out,
    first_missing (required_keys name) arguments = Some missing
    /\ In missing (required_keys name)
    /\ lookup missing arguments = None
    /\ run backend (call_tool name arguments) s = ([], s, ok out)
    /\ error_envelope (str_exn (KeyError missing)) name arguments out.
Proof.
  intros Hin Hl Hs State backend s.
  destruct (first_missing_some _ _ _ Hin Hl) as [missing Hm].
  destruct (first_missing_spec _ _ _ Hm) as [Hin' Hl'].
  destruct (run_call_tool_throw name arguments _
              (route_first_missing name arguments missing Hm) Hs
              State backend s) as [out [Hrun Henv]].
  exists missing, out. auto.
Qed.

(** [pay_offer] without [l402_offer]. *)
Lemma missing_required_key_error_envelope_witness :
  exists missing out,
    first_missing (required_keys "pay_offer") [("offer_id", PStr "o1")]
    = Some missing
    /\ In missing (required_keys "pay_offer")
    /\ lookup missing [("offer_id", PStr "o1")] = None
    /\ run counting_backend
         (call_tool "pay_offer" [("offer_id", PStr "o1")]) 0%nat
       = ([], 0%nat, ok out)
    /\ error_envelope (str_exn (KeyError missing)) "pay_offer"
         [("offer_id", PStr "o1")] out.
Proof.
  refine (missing_required_key_error_envelope "pay_offer"
            [("offer_id", PStr "o1")] "l402_offer" _ eq_refl eq_refl
            nat counting_backend 0%nat).
  cbn. tauto.
Defined.

(** The [except] block calls nothing, whatever its encoder does. *)
Lemma run_except_block_requests {State : Type}
    (backend : Fewsats.request -> State -> result Response.t * State)
    (e : exn) (name : string) (arguments : dict) (s : State) :
  fst (run backend (except_block e name arguments) s) = ([], s).
Proof.
  unfold except_block.
  now destruct (json.dumps 2 None (error_result e name arguments)).
Qed.

(** When the routing makes a call, it is the one call of [call_tool]. *)
Lemma requests_forward {State : Type}
    (backend : Fewsats.request -> State -> result Response.t * State)
    (name : string) (arguments : dict) (rq : Fewsats.request) (s : State) :
  route name arguments = forward rq ->
  requests_of backend (call_tool name arguments) s = [rq].
Proof.
  intros H. unfold requests_of, call_tool.
  rewrite run_try_except,
    (@run_try_block_forward State backend name arguments rq s H).
  destruct (fst (backend rq s)) as [e|response]; unfold raise;
    cbv beta iota.
  - pose proof (run_except_block_requests backend e name arguments
                  (snd (backend rq s))) as Hr.
    destruct (run backend (except_block e name arguments)
                (snd (backend rq s))) as [[requests s'] out].
    cbn in Hr. injection Hr as -> _. reflexivity.
  - destruct (dumps_default_total 2 str (_handle_response response))
      as [text ->].
    reflexivity.
Qed.

(** When the routing raises, [call_tool] calls nothing. *)
Lemma requests_throw {State : Type}
    (backend : Fewsats.request -> State -> result Response.t * State)
    (name : string) (arguments : dict) (e : exn) (s : State) :
  route name arguments = throw e ->
  requests_of backend (call_tool name arguments) s = [].
Proof.
  intros H. unfold requests_of, call_tool.
  rewrite run_try_except,
    (@run_try_block_throw State backend name arguments e s H).
  unfold raise; cbv beta iota.
  pose proof (run_except_block_requests backend e name arguments s) as Hr.
  destruct (run backend (except_block e name arguments) s)
    as [[requests s'] out].
  cbn in Hr. injection Hr as -> _. reflexivity.
Qed.

(** C8. Every invocation, whether its [try] block returns or raises,
    produces exactly one envelope: [call_tool] returns a list of exactly
    one item, of type [text], and the client is called once at most.  The
    item is the envelope of the invocation and of nothing else: the error
    envelope of what the routing raised, when no request was made; after
    the one request, the error envelope of what the client raised or the
    success envelope of the response it returned. *)
Theorem call_tool_one_envelope (name : string) (arguments : dict) :
  json.serializable (PDict arguments) = true ->
  forall (State : Type)
         (backend : Fewsats.request -> State -> result Response.t * State)
         (s : State),
  exists item,
    outcome_of backend (call_tool name arguments) s = ok [item]
    /\ TextContent.type item = "text"
    /\ (List.length (requests_of backend (call_tool name arguments) s) <= 1)%nat
    /\ envelope_of_invocation backend s name arguments item.
Proof.
  intros Hs State backend s.
  destruct (route_cases name arguments) as [[e Hr]|[rq Hr]].
  - destruct (run_call_tool_throw name arguments e Hr Hs State backend s)
      as [out [Hrun (text & Ht & ->)]].
    exists (TextContent.make "text" text).
    unfold outcome_of, requests_of, envelope_of_invocation, requests_of.
    rewrite Hrun. cbn [fst snd List.length].
    split; [reflexivity|]. split; [reflexivity|]. split; [lia|].
    left. exists e. split; [exact Hr|]. split; [reflexivity|].
    exists text. now split.
  - destruct (backend rq s) as [[e|response] s'] eqn:Hb.
    + destruct (@run_except_block State backend name arguments e s' Hs)
        as [text [Ht Hx]].
      assert (Hrun : run backend (call_tool name arguments) s
                     = ([rq], s', ok [TextContent.make "text" text])).
      { unfold call_tool. rewrite run_try_except,
          (@run_try_block_forward State backend name arguments rq s Hr), Hb.
        unfold raise; cbn [fst snd]; cbv beta iota. now rewrite Hx. }
      exists (TextContent.make "text" text).
      unfold outcome_of, requests_of, envelope_of_invocation, requests_of.
      rewrite Hrun. cbn [fst snd List.length].
      split; [reflexivity|]. split; [reflexivity|]. split; [lia|].
      right; left. exists rq, e. split; [exact Hr|].
      split; [now rewrite Hb|]. split; [reflexivity|].
      exists text. now split.
    + destruct (dumps_default_total 2 str (_handle_response response))
        as [text Ht].
      assert (Hrun : run backend (call_tool name arguments) s
                     = ([rq], s', ok [TextContent.make "text" text])).
      { unfold call_tool. rewrite run_try_except,
          (@run_try_block_forward State backend name arguments rq s Hr), Hb.
        cbn [fst snd]. now rewrite Ht. }
      exists (TextContent.make "text" text).
      unfold outcome_of, requests_of, envelope_of_invocation, requests_of.
      rewrite Hrun. cbn [fst snd List.length].
      split; [reflexivity|]. split; [reflexivity|]. split; [lia|].
      right; right. exists rq, response. split; [exact Hr|].
      split; [now rewrite Hb|]. split; [reflexivity|].
      exists text. now split.
Qed.

(** A [balance] call that succeeds, and [payment_info] with
    [{"pid": "abc"}] against a client that raises. *)
Lemma call_tool_one_envelope_witness :
  (exists item,
      outcome_of counting_backend (call_tool "balance" []) 0%nat = ok [item]
      /\ TextContent.type item = "text"
      /\ (List.length
            (requests_of counting_backend (call_tool "balance" []) 0%nat)
          <= 1)%nat
      /\ envelope_of_invocation counting_backend 0%nat "balance" [] item)
  /\ (exists item,
         outcome_of failing_backend
           (call_tool "payment_info" [("pid", PStr "abc")]) tt = ok [item]
         /\ TextContent.type item = "text"
         /\ (List.length
               (requests_of failing_backend
                  (call_tool "payment_info" [("pid", PStr "abc")]) tt)
             <= 1)%nat
         /\ envelope_of_invocation failing_backend tt "payment_info"
              [("pid", PStr "abc")] item).
Proof.
  split.
  - exact (call_tool_one_envelope "balance" [] eq_refl nat counting_backend
             0%nat).
  - exact (call_tool_one_envelope "payment_info" [("pid", PStr "abc")]
             eq_refl unit failing_backend tt).
Defined.

(** C6. [call_tool] routes each name to its own operation of the client,
    called exactly once with the arguments in the stated order:
    [balance], [payment_methods] and [billing_info] without argument,
    whatever the mapping; [pay_offer] with [(offer_id, l402_offer)];
    [payment_info] with [(pid)]; [create_x402_payment_header] to
    [pay_x402_offer] with [x402_payload] first and [chain] second. *)
Theorem routing_table {State : Type}
    (backend : Fewsats.request -> State -> result Response.t * State)
    (s : State) (arguments : dict) :
  requests_of backend (call_tool "balance" arguments) s = [Fewsats.balance]
  /\ requests_of backend (call_tool "payment_methods" arguments) s
     = [Fewsats.payment_methods]
  /\ requests_of backend (call_tool "billing_info" arguments) s
     = [Fewsats.billing_info]
  /\ (forall offer_id l402_offer,
         lookup "offer_id" arguments = Some offer_id ->
         lookup "l402_offer" arguments = Some l402_offer ->
         requests_of backend (call_tool "pay_offer" arguments) s
         = [Fewsats.pay_offer offer_id l402_offer])
  /\ (forall pid,
         lookup "pid" arguments = Some pid ->
         requests_of backend (call_tool "payment_info" arguments) s
         = [Fewsats.payment_info pid])
  /\ (forall chain x402_payload,
         lookup "chain" arguments = Some chain ->
         lookup "x402_payload" arguments = Some x402_payload ->
         requests_of backend
           (call_tool "create_x402_payment_header" arguments) s
         = [Fewsats.pay_x402_offer x402_payload chain]).
Proof.
  repeat split; intros; apply requests_forward;
    unfold route, getitem; cbn;
    repeat match goal with H : lookup _ _ = Some _ |- _ => rewrite H end;
    reflexivity.
Qed.

Lemma routing_table_witness :
  requests_of counting_backend (call_tool "pay_offer" sample_arguments) 0%nat
  = [Fewsats.pay_offer (PStr "offer_1") (PDict [("version", PStr "0.2.2")])]
  /\ requests_of counting_backend
       (call_tool "payment_info" sample_arguments) 0%nat
     = [Fewsats.payment_info (PStr "abc")]
  /\ requests_of counting_backend
       (call_tool "create_x402_payment_header" sample_arguments) 0%nat
     = [Fewsats.pay_x402_offer
          (PDict [("accepts", PList []); ("x402Version", PInt 1)])
          (PStr "base")].
Proof.
  destruct (routing_table counting_backend 0%nat sample_arguments)
    as (_ & _ & _ & Hpay & Hinfo & Hx402).
  split; [exact (Hpay _ _ eq_refl eq_refl)|].
  split; [exact (Hinfo _ eq_refl)|].
  exact (Hx402 _ _ eq_refl eq_refl).
Defined.

(** The normalised result is a pair of the status and a payload. *)
Lemma handle_response_pair (response : Response.t) :
  exists payload,
    _handle_response response
    = PTuple [PInt (Response.status_code response); payload].
Proof.
  unfold _handle_response.
  destruct (Response.json response); eexists; reflexivity.
Qed.

Lemma string_app_assoc (a b c : string) : (a ++ b) ++ c = a ++ (b ++ c).
Proof. induction a as [|x a IH]; cbn; [reflexivity | now rewrite IH]. Qed.

(** The rendering of a pair at the top level, with [indent=2]. *)
Lemma dumps_pair default (a b : pyvalue) (ta tb : string) :
  json.iterencode 2 default a 1 = ok ta ->
  json.iterencode 2 default b 1 = ok tb ->
  json.dumps 2 default (PTuple [a; b])
  = ok ("[" ++ json.lf ++ "  " ++ ta ++ "," ++ json.lf ++ "  " ++ tb
            ++ json.lf ++ "]").
Proof.
  intros Ha Hb. unfold json.dumps. rewrite iterencode_tuple.
  cbn [rmap]. rewrite Ha, Hb. cbn.
  rewrite string_app_assoc. reflexivity.
Qed.

(** C7. When the routing of an invocation yields a result, it is a pair
    [(status, payload)] and [call_tool] returns one text item holding its
    JSON rendering with an indentation of two spaces: an opening bracket,
    the status and the payload each on a line of its own behind two
    spaces, a closing bracket.  The rendering never raises: it has a
    text for every value, and a value [json] has no encoding for is
    rendered as the JSON string of its [str()]. *)
Theorem success_serialization {State : Type}
    (backend : Fewsats.request -> State -> result Response.t * State)
    (s : State) (name : string) (arguments : dict) (result : pyvalue) :
  outcome_of backend (route name arguments) s = ok result ->
  (exists status payload payload_text,
      result = PTuple [PInt status; payload]
      /\ json.iterencode 2 (Some str) payload 1 = ok payload_text
      /\ outcome_of backend (call_tool name arguments) s
         = ok [TextContent.make "text"
                 ("[" ++ json.lf ++ "  " ++ json.intstr status ++ ","
                      ++ json.lf ++ "  " ++ payload_text
                      ++ json.lf ++ "]")])
  /\ (forall v, exists text, json.dumps 2 (Some str) v = ok text)
  /\ (forall o level,
         json.iterencode 2 (Some str) (PObject o) level
         = ok (json.encode_str (str o))).
Proof.
  intros Hroute.
  split; [|split; [intros v; apply dumps_default_total | reflexivity]].
  destruct (route_cases name arguments) as [[e H]|[rq H]].
  { unfold outcome_of in Hroute. rewrite H in Hroute. discriminate. }
  unfold outcome_of in *. rewrite H in Hroute. cbn in Hroute.
  destruct (backend rq s) as [[e|response] s'] eqn:Hb; cbn in Hroute;
    [discriminate|].
  injection Hroute as <-.
  destruct (handle_response_pair response) as [payload Hp].
  destruct (iterencode_default_total 2 str payload 1) as [payload_text Ht].
  exists (Response.status_code response), payload, payload_text.
  split; [exact Hp|]. split; [exact Ht|].
  unfold call_tool. rewrite run_try_except,
    (@run_try_block_forward State backend name arguments rq s H), Hb.
  cbn [fst snd]. rewrite Hp.
  rewrite (dumps_pair (Some str) (PInt (Response.status_code response))
             payload (json.intstr (Response.status_code response))
             payload_text eq_refl Ht).
  reflexivity.
Qed.

Lemma success_serialization_witness :
  exists status payload payload_text,
    _handle_response
      (Response.make 200
         (ok (PDict [("created", PObject (mk_pyobject "datetime" "2025-01-01 00:00:00"))]))
         "")
    = PTuple [PInt status; payload]
    /\ json.iterencode 2 (Some str) payload 1 = ok payload_text
    /\ outcome_of opaque_backend (call_tool "balance" []) tt
       = ok [TextContent.make "text"
               ("[" ++ json.lf ++ "  " ++ json.intstr status ++ ","
                    ++ json.lf ++ "  " ++ payload_text
                    ++ json.lf ++ "]")].
Proof.
  exact (proj1 (success_serialization opaque_backend tt "balance" [] _
                  eq_refl)).
Defined.

(** What the [try] block returns, [call_tool] returns. *)
Lemma call_tool_returns_try_block {State : Type}
    (backend : Fewsats.request -> State -> result Response.t * State)
    (name : string) (arguments : dict) (s : State)
    (out : list TextContent.t) :
  outcome_of backend (try_block name arguments) s = ok out ->
  outcome_of backend (call_tool name arguments) s = ok out.
Proof.
  unfold outcome_of, call_tool. rewrite run_try_except.
  destruct (run backend (try_block name arguments) s)
    as [[requests s'] [e|a]]; cbn; [discriminate | trivial].
Qed.

(** With every required key present, the routing of a registered tool
    makes its call. *)
Lemma route_none_missing (name : string) (arguments : dict) :
  In name (map Tool.name list_tools) ->
  first_missing (required_keys name) arguments = None ->
  exists rq, route name arguments = forward rq.
Proof.
  intros Hin.
  destruct (required_keys_cases name)
    as [[-> ->]|[[-> ->]|[[-> ->]|[Hn ->]]]]; cbn; unfold route, getitem; cbn.
  - destruct (lookup "offer_id" arguments); [|discriminate].
    destruct (lookup "l402_offer" arguments); [|discriminate].
    intros _. eexists; reflexivity.
  - destruct (lookup "pid" arguments); [|discriminate].
    intros _. eexists; reflexivity.
  - destruct (lookup "chain" arguments); [|discriminate].
    destruct (lookup "x402_payload" arguments); [|discriminate].
    intros _. eexists; reflexivity.
  - intros _. destruct Hn as [->|[->|[->|Hn]]];
      [eexists; reflexivity .. | contradiction].
Qed.

Lemma registered (name : string) :
  existsb (fun t => (Tool.name t =? name)%string) list_tools = true ->
  In name (map Tool.name list_tools).
Proof.
  intros H. apply existsb_exists in H as [t [Hin Ht]].
  apply String.eqb_eq in Ht as <-. now apply in_map.
Qed.

(** For arguments that satisfy the schema, and for a name that is not
    listed, the handler returns what [call_tool] returns: the same
    requests, the same state, its content unflagged. *)
Lemma server_call_tool_dispatches
    (validation_error : Tool.t -> dict -> string)
    (name : string) (arguments : dict) :
  match descriptor name with
  | Some tool =>
      schema.valid (Tool.inputSchema tool) (PDict arguments) = true
  | None => True
  end ->
  forall (State : Type)
         (backend : Fewsats.request -> State -> result Response.t * State)
         (s : State),
    run backend (server_call_tool validation_error name arguments) s
    = let '(requests, s', out) := run backend (call_tool name arguments) s in
      (requests, s',
       match out with
       | inr content => ok (CallToolResult.make content false)
       | inl e =>
           ok (CallToolResult.make [TextContent.make "text" (str_exn e)] true)
       end).
Proof.
  intros Hv State backend s. unfold server_call_tool.
  assert (Hd : forall p : prog (list TextContent.t),
             run backend
               (try_except
                  (content <- p ;; ret (CallToolResult.make content false))
                  (fun e =>
                     ret (CallToolResult.make
                            [TextContent.make "text" (str_exn e)] true))) s
             = let '(requests, s', out) := run backend p s in
               (requests, s',
                match out with
                | inr content => ok (CallToolResult.make content false)
                | inl e =>
                    ok (CallToolResult.make
                          [TextContent.make "text" (str_exn e)] true)
                end)).
  { intros p. rewrite run_try_except, run_bind.
    destruct (run backend p s) as [[requests s'] [e|content]]; cbn;
      now rewrite app_nil_r. }
  destruct (descriptor name) as [tool|]; [rewrite Hv|]; apply Hd.
Qed.








(** The routing reads the arguments at the required keys only. *)
Lemma route_agree (name : string) (a b : dict) :
  agree_on (required_keys name) a b ->
  route name a = route name b.
Proof.
  unfold agree_on.
  destruct (required_keys_cases name)
    as [[-> ->]|[[-> ->]|[[-> ->]|[Hn ->]]]]; intros H.
  - unfold route, getitem; cbn.
    rewrite (H "offer_id"), (H "l402_offer") by (cbn; tauto). reflexivity.
  - unfold route, getitem; cbn.
    rewrite (H "pid") by (cbn; tauto). reflexivity.
  - unfold route, getitem; cbn.
    rewrite (H "chain"), (H "x402_payload") by (cbn; tauto). reflexivity.
  - destruct Hn as [->|[->|[->|Hn]]]; [reflexivity .. |].
    now rewrite (route_unknown name a Hn), (route_unknown name b Hn).
Qed.

(** C10. The dispatch of a tool depends on its name and on the values at
    its required keys only.  For two mappings that agree on the required
    keys of the tool (and differ in any other key), the routing and the
    whole [try] block are the same program: against every client the same
    requests are made, and an invocation that returns its success envelope
    with one mapping returns the same envelope with the other, so an extra
    key never makes an invocation fail.  [balance], [payment_methods] and
    [billing_info] have no required key: any two mappings agree for
    them. *)
Theorem dispatch_depends_on_required_keys (name : string) (a b : dict) :
  agree_on (required_keys name) a b ->
  route name a = route name b
  /\ try_block name a = try_block name b
  /\ (forall (State : Type)
             (backend : Fewsats.request -> State -> result Response.t * State)
             (s : State),
         requests_of backend (call_tool name a) s
         = requests_of backend (call_tool name b) s
         /\ forall out,
              outcome_of backend (try_block name a) s = ok out ->
              outcome_of backend (call_tool name a) s = ok out
              /\ outcome_of backend (call_tool name b) s = ok out)
  /\ (forall a' b', agree_on (required_keys "balance") a' b')
  /\ (forall a' b', agree_on (required_keys "payment_methods") a' b')
  /\ (forall a' b', agree_on (required_keys "billing_info") a' b').
Proof.
  intros Hagree. pose proof (route_agree name a b Hagree) as Hroute.
  assert (Htry : try_block name a = try_block name b).
  { unfold try_block. now rewrite Hroute. }
  split; [exact Hroute|]. split; [exact Htry|].
  split; [|repeat split; intros a' b' k []].
  intros State backend s. split.
  - destruct (route_cases name a) as [[e H]|[rq H]].
    + rewrite (requests_throw backend name a e s H).
      rewrite Hroute in H.
      now rewrite (requests_throw backend name b e s H).
    + rewrite (requests_forward backend name a rq s H).
      rewrite Hroute in H.
      now rewrite (requests_forward backend name b rq s H).
  - intros out Hout. split.
    + now apply call_tool_returns_try_block.
    + apply call_tool_returns_try_block. now rewrite <- Htry.
Qed.

(** [payment_info] with and without keys it does not read. *)
Lemma dispatch_depends_on_required_keys_witness :
  route "payment_info" [("pid", PStr "abc")]
  = route "payment_info"
      [("verbose", PBool true); ("pid", PStr "abc"); ("chain", PStr "base")]
  /\ requests_of counting_backend
       (call_tool "payment_info" [("pid", PStr "abc")]) 0%nat
     = requests_of counting_backend
         (call_tool "payment_info"
            [("verbose", PBool true); ("pid", PStr "abc");
             ("chain", PStr "base")]) 0%nat.
Proof.
  assert (H : agree_on (required_keys "payment_info")
                [("pid", PStr "abc")]
                [("verbose", PBool true); ("pid", PStr "abc");
                 ("chain", PStr "base")]).
  { intros k [<-|[]]. reflexivity. }
  destruct (dispatch_depends_on_required_keys "payment_info" _ _ H)
    as (Hroute & _ & Hrun & _).
  split; [exact Hroute|].
  exact (proj1 (Hrun nat counting_backend 0%nat)).
Defined.

(** ** Further properties: the entry point *)

(** X1. [main] prints the usage and stops exactly when the first
    argument after the program name is [--help]: then the fourteen usage
    lines go to the standard output, nothing to the standard error, the
    server is neither constructed nor run, and [main] returns.  With any
    other argument list ([--help] absent, or in another position) nothing
    is printed on the standard output and the server is constructed
    first. *)
Theorem main_help_mode (argv : list string) (w : World) :
  (nth_error argv 1 = Some "--help" ->
   main argv w = (map print usage, returns)
   /\ stdout_of (fst (main argv w)) = usage
   /\ stderr_of (fst (main argv w)) = []
   /\ ~ In FewsatsMCPServer_init (fst (main argv w))
   /\ ~ In asyncio_run (fst (main argv w)))
  /\ (nth_error argv 1 <> Some "--help" ->
      stdout_of (fst (main argv w)) = []
      /\ exists rest, fst (main argv w) = FewsatsMCPServer_init :: rest).
Proof.
  split.
  - intros H.
    assert (Hm : main argv w = (map print usage, returns)).
    { unfold main. destruct argv as [|a0 [|a1 argv]]; try discriminate.
      cbn in H. injection H as ->. reflexivity. }
    rewrite Hm. split; [reflexivity|]. split; [reflexivity|].
    split; [reflexivity|].
    split; cbn; intros Hin; repeat destruct Hin as [Hin|Hin];
      solve [discriminate | contradiction].
  - intros H. unfold main.
    assert (Hc : (Nat.ltb 1 (List.length argv)
                  && (nth 1 argv "" =? "--help")%string)%bool = false).
    { destruct argv as [|a0 [|a1 argv]]; try reflexivity.
      cbn. destruct (String.eqb_spec a1 "--help") as [->|]; [|reflexivity].
      now contradiction H. }
    rewrite Hc.
    destruct (init_raises w) as [t|]; [cbn; eauto|].
    destruct (run_raises w) as [[|e|class]|]; cbn; eauto.
Qed.

Lemma main_help_mode_witness :
  main ["fewsats-mcp"; "--help"] (mk_World None None)
  = (map print usage, returns)
  /\ stdout_of (fst (main ["fewsats-mcp"; "--help"] (mk_World None None)))
     = usage
  /\ stderr_of (fst (main ["fewsats-mcp"; "--help"] (mk_World None None)))
     = []
  /\ ~ In FewsatsMCPServer_init
         (fst (main ["fewsats-mcp"; "--help"] (mk_World None None)))
  /\ ~ In asyncio_run
         (fst (main ["fewsats-mcp"; "--help"] (mk_World None None))).
Proof.
  exact (proj1 (main_help_mode ["fewsats-mcp"; "--help"] (mk_World None None))
           eq_refl).
Defined.

(** X2. Outside the help mode, [main] ends with [sys.exit(1)] exactly
    when the server was constructed and its run raised an instance of
    [Exception]; the line [Server error: <str(e)>] is then the one line on
    the standard error.  An interrupt of the run makes [main] return,
    after one line on the standard error.  An exception of the
    constructor is not caught: it leaves [main], the run never starts and
    nothing is printed. *)
Theorem main_endings (argv : list string) (w : World) :
  nth_error argv 1 <> Some "--help" ->
  (snd (main argv w) = sys_exit 1
   <-> init_raises w = None /\ exists e, run_raises w = Some (Exception e))
  /\ (forall e,
         init_raises w = None -> run_raises w = Some (Exception e) ->
         stderr_of (fst (main argv w)) = ["Server error: " ++ str_exn e])
  /\ (init_raises w = None -> run_raises w = Some KeyboardInterrupt ->
      snd (main argv w) = returns
      /\ stderr_of (fst (main argv w)) = ["\nServer shutting down..."])
  /\ (init_raises w = None -> run_raises w = None ->
      main argv w = ([FewsatsMCPServer_init; asyncio_run], returns))
  /\ (forall t,
         init_raises w = Some t ->
         main argv w = ([FewsatsMCPServer_init], propagates t)).
Proof.
  intros H. unfold main.
  assert (Hc : (Nat.ltb 1 (List.length argv)
                && (nth 1 argv "" =? "--help")%string)%bool = false).
  { destruct argv as [|a0 [|a1 argv]]; try reflexivity.
    cbn. destruct (String.eqb_spec a1 "--help") as [->|]; [|reflexivity].
    now contradiction H. }
  rewrite Hc.
  destruct (init_raises w) as [t|]; [|destruct (run_raises w) as [[|e|c]|]];
    cbn; repeat split; try discriminate; try congruence;
    try (intros [? [? ?]]; discriminate);
    try (intros [? [? ?]]; congruence); eauto.
Qed.

Lemma main_endings_witness :
  snd (main ["fewsats-mcp"]
         (mk_World None (Some (Exception (OtherError "broken pipe")))))
  = sys_exit 1
  <-> init_raises
        (mk_World None (Some (Exception (OtherError "broken pipe")))) = None
      /\ exists e,
           run_raises
             (mk_World None (Some (Exception (OtherError "broken pipe"))))
           = Some (Exception e).
Proof.
  refine (proj1 (main_endings ["fewsats-mcp"]
                   (mk_World None (Some (Exception (OtherError "broken pipe"))))
                   _)).
  cbn. discriminate.
Defined.

(** ** Further properties: the dispatcher *)

(** The text of a non-empty list or tuple opens with a bracket, the text
    of a non-empty dictionary with a brace. *)
Lemma dumps_tuple_head default (v : pyvalue) (items : list pyvalue)
    (text : string) :
  json.dumps 2 default (PTuple (v :: items)) = ok text ->
  exists rest, text = String "[" rest.
Proof.
  unfold json.dumps. rewrite iterencode_tuple.
  destruct (rmap _ (v :: items)) as [e|chunks]; cbn; [discriminate|].
  intros [= <-]. eexists; reflexivity.
Qed.

Lemma dumps_dict_head default (kv : string * pyvalue)
    (entries : list (string * pyvalue)) (text : string) :
  json.dumps 2 default (PDict (kv :: entries)) = ok text ->
  exists rest, text = String "{" rest.
Proof.
  unfold json.dumps. rewrite iterencode_dict.
  destruct (rmap _ (kv :: entries)) as [e|chunks]; cbn; [discriminate|].
  intros [= <-]. eexists; reflexivity.
Qed.

(** X3. The first character of the text [call_tool] returns tells the two
    envelopes apart: on arguments of JSON values, against every client,
    the text opens with a bracket exactly when the [try] block returned
    (the success envelope, a rendered pair) and with a brace exactly when
    it raised (the error envelope, a rendered dictionary). *)
Theorem envelope_kind_by_first_character (name : string) (arguments : dict) :
  json.serializable (PDict arguments) = true ->
  forall (State : Type)
         (backend : Fewsats.request -> State -> result Response.t * State)
         (s : State),
  exists c rest,
    outcome_of backend (call_tool name arguments) s
    = ok [TextContent.make "text" (String c rest)]
    /\ (c = "["%char
        <-> exists out, outcome_of backend (try_block name arguments) s = ok out)
    /\ (c = "{"%char
        <-> exists e, outcome_of backend (try_block name arguments) s = raise e).
Proof.
  intros Hs State backend s.
  destruct (@call_tool_outcome State backend name arguments s Hs)
    as [text [Hout Htry]].
  pose proof (@try_block_outcome State backend name arguments s) as Hshape.
  unfold outcome_of in *.
  destruct (run backend (try_block name arguments) s)
    as [[requests s'] [e|out]]; cbn [snd] in Htry.
  - unfold error_result in Htry.
    destruct (dumps_dict_head _ _ _ _ Htry) as [rest ->].
    exists "{"%char, rest. split; [exact Hout|]. cbn. split; split.
    + discriminate.
    + intros [out H]. discriminate.
    + intros _. now exists e.
    + reflexivity.
  - destruct Hshape as (rq & response & _ & _ & t & Ht & Ho).
    subst out. injection Ho as ->.
    destruct (handle_response_pair response) as [payload Hp].
    rewrite Hp in Ht.
    destruct (dumps_tuple_head _ _ _ _ Ht) as [rest ->].
    exists "["%char, rest. split; [exact Hout|]. cbn. split; split.
    + intros _. eexists; reflexivity.
    + reflexivity.
    + discriminate.
    + intros [e H]. discriminate.
Qed.

Lemma envelope_kind_by_first_character_witness :
  exists c rest,
    outcome_of failing_backend
      (call_tool "payment_info" [("pid", PStr "abc")]) tt
    = ok [TextContent.make "text" (String c rest)]
    /\ (c = "["%char
        <-> exists out,
              outcome_of failing_backend
                (try_block "payment_info" [("pid", PStr "abc")]) tt = ok out)
    /\ (c = "{"%char
        <-> exists e,
              outcome_of failing_backend
                (try_block "payment_info" [("pid", PStr "abc")]) tt
              = raise e).
Proof.
  exact (envelope_kind_by_first_character "payment_info"
           [("pid", PStr "abc")] eq_refl unit failing_backend tt).
Defined.

(** X4. What the client does with the one request decides the envelope.
    For a registered tool whose required keys are all present the request
    is made once.  When the client raises [e], the state it left is kept
    and (on arguments of JSON values) the error envelope carries [str(e)],
    the name and the arguments.  When the client returns a response,
    whatever its status code and whether or not its body parses, the
    success envelope of the normalised response is returned: a status of
    failure is not turned into an error envelope. *)
Theorem client_outcome_decides_envelope (name : string) (arguments : dict) :
  In name (map Tool.name list_tools) ->
  first_missing (required_keys name) arguments = None ->
  exists rq,
    route name arguments = forward rq
    /\ forall (State : Type)
              (backend : Fewsats.request -> State -> result Response.t * State)
              (s s' : State),
         (forall e,
             backend rq s = (raise e, s') ->
             json.serializable (PDict arguments) = true ->
             exists out,
               run backend (call_tool name arguments) s = ([rq], s', ok out)
               /\ error_envelope (str_exn e) name arguments out)
         /\ (forall response,
                backend rq s = (ok response, s') ->
                exists out,
                  run backend (call_tool name arguments) s
                  = ([rq], s', ok out)
                  /\ success_envelope (_handle_response response) out).
Proof.
  intros Hin Hm.
  destruct (route_none_missing name arguments Hin Hm) as [rq Hr].
  exists rq. split; [exact Hr|].
  intros State backend s s'. split.
  - intros e Hb Hs. unfold call_tool.
    rewrite run_try_except,
      (@run_try_block_forward State backend name arguments rq s Hr), Hb.
    unfold raise; cbn [fst snd].
    destruct (@run_except_block State backend name arguments e s' Hs)
      as [text [Ht Hrun]].
    rewrite Hrun. exists [TextContent.make "text" text].
    split; [reflexivity|]. exists text. now split.
  - intros response Hb. unfold call_tool.
    rewrite run_try_except,
      (@run_try_block_forward State backend name arguments rq s Hr), Hb.
    unfold ok at 1; cbn [fst snd]; cbv beta iota.
    destruct (dumps_default_total 2 str (_handle_response response))
      as [text Ht].
    rewrite Ht. exists [TextContent.make "text" text].
    split; [reflexivity|]. exists text. now split.
Qed.

Lemma client_outcome_decides_envelope_witness :
  exists rq,
    route "payment_info" [("pid", PStr "abc")] = forward rq
    /\ forall (State : Type)
              (backend : Fewsats.request -> State -> result Response.t * State)
              (s s' : State),
         (forall e,
             backend rq s = (raise e, s') ->
             json.serializable (PDict [("pid", PStr "abc")]) = true ->
             exists out,
               run backend (call_tool "payment_info" [("pid", PStr "abc")]) s
               = ([rq], s', ok out)
               /\ error_envelope (str_exn e) "payment_info"
                    [("pid", PStr "abc")] out)
         /\ (forall response,
                backend rq s = (ok response, s') ->
                exists out,
                  run backend
                    (call_tool "payment_info" [("pid", PStr "abc")]) s
                  = ([rq], s', ok out)
                  /\ success_envelope (_handle_response response) out).
Proof.
  exact (client_outcome_decides_envelope "payment_info" [("pid", PStr "abc")]
           (registered "payment_info" eq_refl) eq_refl).
Defined.

(** A dictionary that satisfies an object schema holds every key of its
    [required] list. *)
Lemma valid_required (s : dict) (entries : dict) (keys : list pyvalue) :
  schema.valid (PDict s) (PDict entries) = true ->
  lookup "required" s = Some (PList keys) ->
  forallb (schema.has_key entries) keys = true.
Proof.
  intros Hv Hr. cbn [schema.valid] in Hv. rewrite Hr in Hv.
  apply andb_true_iff in Hv as [_ Hv].
  apply andb_true_iff in Hv as [Hv _]. exact Hv.
Qed.

Lemma has_keys_none_missing (entries : dict) (keys : list pyvalue) :
  forallb (schema.has_key entries) keys = true ->
  first_missing (strings_of keys) entries = None.
Proof.
  induction keys as [|k keys IH]; cbn; [reflexivity|].
  intros H. apply andb_true_iff in H as [Hk Hks].
  destruct k; cbn; auto.
  cbn in Hk. destruct (lookup s entries); [auto | discriminate].
Qed.

(** X5. The catalogue and the dispatcher fit: arguments that satisfy the
    [inputSchema] [list_tools] declares for a tool are never answered
    with a missing-key error; [call_tool] finds every key it subscripts
    and makes its one request to the client. *)
Theorem schema_valid_arguments_reach_client
    (name : string) (t : Tool.t) (arguments : dict) :
  descriptor name = Some t ->
  schema.valid (Tool.inputSchema t) (PDict arguments) = true ->
  first_missing (required_keys name) arguments = None
  /\ exists rq,
       route name arguments = forward rq
       /\ forall (State : Type)
                 (backend : Fewsats.request -> State
                            -> result Response.t * State)
                 (s : State),
            requests_of backend (call_tool name arguments) s = [rq].
Proof.
  intros Hd Hv.
  assert (Hin : In name (map Tool.name list_tools)).
  { unfold descriptor in Hd. apply find_some in Hd as [Hin Hn].
    apply String.eqb_eq in Hn as <-. now apply in_map. }
  assert (Hm : first_missing (required_keys name) arguments = None).
  { unfold required_keys. rewrite Hd.
    destruct (Tool.inputSchema t) as [| | | | | | |s|]; try reflexivity.
    destruct (lookup "required" s) as [[| | | | |keys| | |]|] eqn:Hr;
      try reflexivity.
    apply has_keys_none_missing. exact (valid_required s arguments keys Hv Hr). }
  split; [exact Hm|].
  destruct (route_none_missing name arguments Hin Hm) as [rq Hr].
  exists rq. split; [exact Hr|].
  intros State backend s. exact (requests_forward backend name arguments rq s Hr).
Qed.

Lemma schema_valid_arguments_reach_client_witness :
  first_missing (required_keys "create_x402_payment_header")
    good_chain_arguments = None
  /\ exists rq,
       route "create_x402_payment_header" good_chain_arguments = forward rq
       /\ forall (State : Type)
                 (backend : Fewsats.request -> State
                            -> result Response.t * State)
                 (s : State),
            requests_of backend
              (call_tool "create_x402_payment_header" good_chain_arguments) s
            = [rq].
Proof.
  exact (schema_valid_arguments_reach_client "create_x402_payment_header"
           x402_descriptor good_chain_arguments eq_refl eq_refl).
Defined.

(** ** Further properties: the characters of the text *)

Lemma all_chars_app (p : ascii -> bool) (a b : string) :
  all_chars p (a ++ b) = (all_chars p a && all_chars p b)%bool.
Proof.
  induction a as [|c a IH]; cbn; [reflexivity|].
  now rewrite IH, andb_assoc.
Qed.

Lemma all_chars_impl (p q : ascii -> bool) (s : string) :
  (forall c, p c = true -> q c = true) ->
  all_chars p s = true -> all_chars q s = true.
Proof.
  intros Hpq. induction s as [|c s IH]; cbn; [reflexivity|].
  intros H. apply andb_true_iff in H as [Hc Hs].
  now rewrite (Hpq c Hc), IH.
Qed.

(** A property of all 256 characters, checked one by one. *)
Ltac each_char c :=
  destruct c as [[|] [|] [|] [|] [|] [|] [|] [|]]; vm_compute;
  try reflexivity; try discriminate.

Lemma escape_char_printable (c : ascii) :
  all_chars printable (json.escape_char c) = true.
Proof. each_char c. Qed.

Lemma escape_printable (s : string) :
  all_chars printable (json.escape s) = true.
Proof.
  induction s as [|c s IH]; cbn; [reflexivity|].
  now rewrite all_chars_app, escape_char_printable, IH.
Qed.

Lemma encode_str_printable (s : string) :
  all_chars printable (json.encode_str s) = true.
Proof.
  unfold json.encode_str.
  now rewrite !all_chars_app, escape_printable.
Qed.

Lemma string_of_uint_digits (d : Decimal.uint) :
  all_chars digit (NilEmpty.string_of_uint d) = true.
Proof. induction d; cbn; auto. Qed.

Lemma intstr_digits (n : Z) :
  all_chars digit_or_minus (json.intstr n) = true.
Proof.
  unfold json.intstr.
  assert (H : forall d, all_chars digit_or_minus (NilZero.string_of_uint d)
                        = true).
  { intros d. apply (all_chars_impl digit).
    - intros c Hc. unfold digit_or_minus. now rewrite Hc.
    - destruct d; try apply string_of_uint_digits. reflexivity. }
  destruct (Z.to_int n) as [d|d]; cbn; [apply H|].
  apply H.
Qed.

Lemma digit_or_minus_printable (c : ascii) :
  digit_or_minus c = true -> printable c = true.
Proof. each_char c. Qed.

Lemma float_char_printable (c : ascii) :
  float_char c = true -> printable c = true.
Proof. each_char c. Qed.

Lemma printable_lf (c : ascii) :
  printable c = true -> printable_or_lf c = true.
Proof. unfold printable_or_lf. now intros ->. Qed.

Lemma float_text_printable (repr : string) :
  float_text repr = true -> all_chars printable repr = true.
Proof.
  unfold float_text. intros H.
  repeat (apply orb_true_iff in H as [H|H]);
    try (apply String.eqb_eq in H as ->; reflexivity).
  apply andb_true_iff in H as [H _].
  exact (all_chars_impl _ _ _ float_char_printable H).
Qed.

Lemma spaces_printable (n : nat) :
  all_chars printable (json.spaces n) = true.
Proof. induction n; cbn; auto. Qed.

Lemma newline_indent_ascii (indent level : nat) :
  all_chars printable_or_lf (json.newline_indent indent level) = true.
Proof.
  unfold json.newline_indent. rewrite all_chars_app. cbn.
  exact (all_chars_impl _ _ _ printable_lf (spaces_printable _)).
Qed.

Lemma concat_ascii (sep : string) (chunks : list string) :
  all_chars printable_or_lf sep = true ->
  Forall (fun c => all_chars printable_or_lf c = true) chunks ->
  all_chars printable_or_lf (String.concat sep chunks) = true.
Proof.
  intros Hsep. induction 1 as [|c chunks Hc Hcs IH]; [reflexivity|].
  destruct chunks as [|c' chunks]; cbn; [exact Hc|].
  rewrite !all_chars_app, Hc, Hsep. exact IH.
Qed.

Lemma bracket_ascii (indent : nat) (opening closing : string) (level : nat)
    (chunks : list string) :
  all_chars printable_or_lf opening = true ->
  all_chars printable_or_lf closing = true ->
  Forall (fun c => all_chars printable_or_lf c = true) chunks ->
  all_chars printable_or_lf (json.bracket indent opening closing level chunks)
  = true.
Proof.
  intros Ho Hc Hcs. unfold json.bracket.
  rewrite !all_chars_app, Ho, Hc, !newline_indent_ascii.
  rewrite concat_ascii; auto.
  rewrite all_chars_app, newline_indent_ascii. reflexivity.
Qed.

(** What holds of the text of every item holds of every chunk. *)
Lemma rmap_forall {A B} (f : A -> result B) (Q : B -> Prop) (l : list A) :
  Forall (fun a => forall b, f a = ok b -> Q b) l ->
  forall bs, rmap f l = ok bs -> Forall Q bs.
Proof.
  induction 1 as [|a l Ha _ IH]; cbn; intros bs H.
  - injection H as <-. constructor.
  - destruct (f a) as [e|b] eqn:Hb; cbn in H; [discriminate|].
    destruct (rmap f l) as [e|bs'] eqn:Hbs; cbn in H; [discriminate|].
    injection H as <-. constructor; [now apply Ha | now apply IH].
Qed.

(** The text the encoder gives holds printable ASCII characters and line
    feeds only: every string, also the one [default=] returns, goes
    through the escaping of [encode_str]. *)
Lemma iterencode_ascii indent default (o : pyvalue) :
  floats_ok o = true ->
  forall level text,
    json.iterencode indent default o level = ok text ->
    all_chars printable_or_lf text = true.
Proof.
  induction o as [ | [|] | n | repr | s | items IH | items IH | entries IH | o ]
    using pyvalue_nested_ind; intros Hf level text;
    try (cbn; intros [= <-]; reflexivity).
  - cbn. intros [= <-].
    exact (all_chars_impl _ _ _
             (fun c H => printable_lf c (digit_or_minus_printable c H))
             (intstr_digits n)).
  - cbn. intros [= <-]. cbn in Hf.
    exact (all_chars_impl _ _ _ printable_lf (float_text_printable _ Hf)).
  - cbn. intros [= <-].
    exact (all_chars_impl _ _ _ printable_lf (encode_str_printable s)).
  - destruct items as [|v items]; [cbn; intros [= <-]; reflexivity|].
    rewrite iterencode_list.
    destruct (rmap _ (v :: items)) as [e|chunks] eqn:Hc;
      unfold rbind, ok; [discriminate|].
    intros [= <-]. apply bracket_ascii; try reflexivity.
    refine (rmap_forall _ _ _ _ _ Hc).
    cbn in Hf. pose proof (Forall_forallb_impl _ _ _ IH Hf) as IH'.
    eapply Forall_impl; [|exact IH']. intros x Hx b Hb. exact (Hx _ _ Hb).
  - destruct items as [|v items]; [cbn; intros [= <-]; reflexivity|].
    rewrite iterencode_tuple.
    destruct (rmap _ (v :: items)) as [e|chunks] eqn:Hc;
      unfold rbind, ok; [discriminate|].
    intros [= <-]. apply bracket_ascii; try reflexivity.
    refine (rmap_forall _ _ _ _ _ Hc).
    cbn in Hf. pose proof (Forall_forallb_impl _ _ _ IH Hf) as IH'.
    eapply Forall_impl; [|exact IH']. intros x Hx b Hb. exact (Hx _ _ Hb).
  - destruct entries as [|kv entries]; [cbn; intros [= <-]; reflexivity|].
    rewrite iterencode_dict.
    destruct (rmap _ (kv :: entries)) as [e|chunks] eqn:Hc;
      unfold rbind, ok; [discriminate|].
    intros [= <-]. apply bracket_ascii; try reflexivity.
    refine (rmap_forall _ _ _ _ _ Hc).
    cbn in Hf.
    pose proof (Forall_forallb_impl
                  (fun kv : string * pyvalue => floats_ok (snd kv))
                  _ _ IH Hf) as IH'.
    eapply Forall_impl; [|exact IH']. intros [k x] Hx b; cbn in Hx.
    destruct (json.iterencode indent default x (S level)) as [e|c] eqn:Hx';
      unfold rbind, ok; [discriminate|].
    intros [= <-].
    change (all_chars printable_or_lf (json.encode_str k ++ ": " ++ c)
            = true).
    rewrite !all_chars_app, (Hx _ _ Hx').
    rewrite (all_chars_impl _ _ _ printable_lf (encode_str_printable k)).
    reflexivity.
  - unfold json.iterencode, json.encode_default.
    destruct default as [f|]; [|discriminate].
    intros [= <-].
    exact (all_chars_impl _ _ _ printable_lf (encode_str_printable (f o))).
Qed.

Lemma handle_response_floats_ok (response : Response.t) :
  (forall parsed, Response.json response = ok parsed ->
                  floats_ok parsed = true) ->
  floats_ok (_handle_response response) = true.
Proof.
  intros H. unfold _handle_response.
  destruct (Response.json response) as [e|parsed]; cbn; [reflexivity|].
  now rewrite (H parsed eq_refl).
Qed.

(** The text [call_tool] returns holds nothing but printable ASCII
    characters and line feeds, whatever characters (of the strings of
    this development) the tool name, the argument strings, the message of
    an exception or the body of a response hold. *)
Lemma call_tool_text_ascii (name : string) (arguments : dict) :
  json.serializable (PDict arguments) = true ->
  floats_ok (PDict arguments) = true ->
  forall (State : Type)
         (backend : Fewsats.request -> State -> result Response.t * State)
         (s : State),
  floats_ok_backend backend ->
  exists text,
    outcome_of backend (call_tool name arguments) s
    = ok [TextContent.make "text" text]
    /\ all_chars printable_or_lf text = true.
Proof.
  intros Hs Hf State backend s Hb.
  destruct (@call_tool_outcome State backend name arguments s Hs)
    as [text [Hout Htry]].
  exists text. split; [exact Hout|].
  pose proof (@try_block_outcome State backend name arguments s) as Hshape.
  unfold outcome_of in *.
  destruct (run backend (try_block name arguments) s)
    as [[requests s'] [e|out]]; cbn [snd] in Htry.
  - refine (iterencode_ascii 2 None _ _ 0%nat text Htry).
    unfold error_result. cbn [floats_ok forallb snd].
    cbn [floats_ok] in Hf. now rewrite Hf.
  - destruct Hshape as (rq & response & _ & Hr & t & Ht & Ho).
    rewrite Ho in Htry. injection Htry as Htt. subst t.
    refine (iterencode_ascii 2 (Some str) _ _ 0%nat text Ht).
    apply handle_response_floats_ok. intros parsed Hp.
    destruct (backend rq s) as [r s1] eqn:Hbr. cbn in Hr. subst r.
    exact (Hb rq s response s1 parsed Hbr Hp).
Qed.

Lemma hex_digit_printable (n : nat) : printable (json.hex_digit n) = true.
Proof.
  do 15 (destruct n as [|n]; [reflexivity|]). reflexivity.
Qed.

Lemma hex4_printable (n : N) : all_chars printable (hex4 n) = true.
Proof.
  unfold hex4. cbn [all_chars]. now rewrite !hex_digit_printable.
Qed.

(** The escaping leaves printable ASCII only, at every code point: also
    above [U+00FF], where it writes [\uXXXX], and above [U+FFFF], where
    it writes a surrogate pair. *)
Lemma escape_code_point_printable (n : N) :
  all_chars printable (escape_code_point n) = true.
Proof.
  unfold escape_code_point.
  repeat match goal with
         | |- context [(n =? ?k)%N] =>
             destruct (n =? k)%N; [reflexivity|]
         end.
  destruct ((32 <=? n) && (n <=? 126))%N eqn:Hp.
  - apply andb_true_iff in Hp as [Hlo Hhi].
    apply N.leb_le in Hlo, Hhi.
    cbn [all_chars]. rewrite andb_true_r.
    unfold printable, nat_of_ascii.
    rewrite N_ascii_embedding by lia.
    apply andb_true_iff. split; apply Nat.leb_le; lia.
  - destruct (n <? 65536)%N.
    + rewrite !all_chars_app, hex4_printable. reflexivity.
    + cbv zeta. rewrite !all_chars_app, !hex4_printable. reflexivity.
Qed.

Lemma escape_code_points_printable (points : list N) :
  all_chars printable (escape_code_points points) = true.
Proof.
  induction points as [|n points IH]; cbn [escape_code_points];
    [reflexivity|].
  now rewrite all_chars_app, escape_code_point_printable, IH.
Qed.

(** [json.escape_char] is [escape_code_point] on the code points below
    256. *)
Lemma escape_char_code_point (c : ascii) :
  json.escape_char c = escape_code_point (N_of_ascii c).
Proof. each_char c. Qed.

Lemma escape_code_points_of_string (s : string) :
  json.escape s = escape_code_points (code_points s).
Proof.
  induction s as [|c s IH]; cbn [json.escape code_points escape_code_points];
    [reflexivity|].
  now rewrite escape_char_code_point, IH.
Qed.

(** X6. Every string goes into the text through the escaping of
    [json.dumps] with [ensure_ascii] at its default, and the escaping
    leaves printable ASCII only at every code point of a Python string:
    the character itself from the space to the tilde, a backslash escape,
    [\uXXXX] up to [U+FFFF] and a surrogate pair above.  The escaping
    this development applies to its strings, which hold code points below
    256, is that function on their code points.  So the text [call_tool]
    returns holds nothing but printable ASCII characters and line feeds,
    whatever the tool name, the argument strings, the message of an
    exception or the body of a response hold.  (Arguments of JSON values;
    floats, in the arguments and in the parsed bodies, carried as the
    texts [json] prints for them.) *)
Theorem call_tool_text_is_ascii :
  (forall points : list N,
      all_chars printable (escape_code_points points) = true)
  /\ (forall s : string,
         json.escape s = escape_code_points (code_points s))
  /\ (forall (name : string) (arguments : dict),
         json.serializable (PDict arguments) = true ->
         floats_ok (PDict arguments) = true ->
         forall (State : Type)
                (backend : Fewsats.request -> State
                           -> result Response.t * State)
                (s : State),
           floats_ok_backend backend ->
           exists text,
             outcome_of backend (call_tool name arguments) s
             = ok [TextContent.make "text" text]
             /\ all_chars printable_or_lf text = true).
Proof.
  split; [exact escape_code_points_printable|].
  split; [exact escape_code_points_of_string|].
  exact call_tool_text_ascii.
Qed.

(** A tool name with a double quote, a line feed and a character above
    the ASCII range. *)
Lemma call_tool_text_is_ascii_witness :
  exists text,
    outcome_of counting_backend
      (call_tool (String "034" (String "010" (String "233" "x")))
         [("amount", PFloat "1.5e-07")]) 0%nat
    = ok [TextContent.make "text" text]
    /\ all_chars printable_or_lf text = true.
Proof.
  refine (proj2 (proj2 call_tool_text_is_ascii)
            (String "034" (String "010" (String "233" "x")))
            [("amount", PFloat "1.5e-07")] eq_refl eq_refl
            nat counting_backend 0%nat _).
  intros rq s response s' parsed Hb Hp.
  injection Hb as <- _. injection Hp as <-. reflexivity.
Defined.

(** ** The text determines the value, for strings of code points below 256 *)

Lemma string_app_inv_head (a x y : string) : a ++ x = a ++ y -> x = y.
Proof.
  induction a as [|c a IH]; cbn; [trivial|].
  intros [= H]. now apply IH.
Qed.

(** Two tokens followed by delimited rests: equal texts split the same
    way. *)
Lemma token_split (t1 t2 r1 r2 : string) :
  all_chars token_char t1 = true ->
  all_chars token_char t2 = true ->
  delimited r1 = true ->
  delimited r2 = true ->
  t1 ++ r1 = t2 ++ r2 ->
  t1 = t2 /\ r1 = r2.
Proof.
  assert (Hx : forall c x, delimited (String c x) = true ->
                           token_char c = true -> False).
  { intros c x. unfold delimited, token_char.
    destruct (Ascii.eqb c ","), (Ascii.eqb c "010"); cbn; congruence. }
  revert t2; induction t1 as [|c1 t1 IH]; intros [|c2 t2]; cbn;
    intros H1 H2 Hr1 Hr2 Heq.
  - now split.
  - subst r1. apply andb_true_iff in H2 as [H2 _].
    destruct (Hx _ _ Hr1 H2).
  - subst r2. apply andb_true_iff in H1 as [H1 _].
    destruct (Hx _ _ Hr2 H1).
  - injection Heq as -> Heq.
    apply andb_true_iff in H1 as [_ H1].
    apply andb_true_iff in H2 as [_ H2].
    destruct (IH t2 H1 H2 Hr1 Hr2 Heq) as [-> ->]. now split.
Qed.

(** A token followed by a delimited rest does not open like a string, a
    list or a dictionary. *)
Lemma token_not_open (t r : string) (c : ascii) (x : string) :
  all_chars token_char t = true ->
  delimited r = true ->
  t ++ r = String c x ->
  c = "034"%char \/ c = "["%char \/ c = "{"%char ->
  False.
Proof.
  destruct t as [|c' t]; cbn; intros Ht Hr Heq Hc.
  - subst r. destruct Hc as [-> | [-> | ->]]; discriminate.
  - injection Heq as -> _. apply andb_true_iff in Ht as [Ht _].
    destruct Hc as [-> | [-> | ->]]; discriminate.
Qed.

Lemma digit_or_minus_token (c : ascii) :
  digit_or_minus c = true -> token_char c = true.
Proof. each_char c. Qed.

Lemma float_char_token (c : ascii) :
  float_char c = true -> token_char c = true.
Proof. each_char c. Qed.

Lemma float_text_token (repr : string) :
  float_text repr = true -> all_chars token_char repr = true.
Proof.
  unfold float_text. intros H.
  repeat (apply orb_true_iff in H as [H|H]);
    try (apply String.eqb_eq in H as ->; reflexivity).
  apply andb_true_iff in H as [H _].
  exact (all_chars_impl _ _ _ float_char_token H).
Qed.

Lemma some_all_disjoint (p q : ascii -> bool) (s : string) :
  (forall c, p c = true -> q c = false) ->
  some_char p s = true -> all_chars q s = true -> False.
Proof.
  intros Hpq. induction s as [|c s IH]; cbn; [discriminate|].
  intros Hs Ha. apply andb_true_iff in Ha as [Hc Ha].
  apply orb_true_iff in Hs as [Hs|Hs]; [|now apply IH].
  rewrite (Hpq c Hs) in Hc. discriminate.
Qed.

(** The text of a float is not the text of an integer. *)
Lemma float_text_not_int (repr : string) :
  float_text repr = true -> all_chars digit_or_minus repr = true -> False.
Proof.
  unfold float_text. intros H Hd.
  repeat (apply orb_true_iff in H as [H|H]);
    try (apply String.eqb_eq in H as ->; discriminate).
  apply andb_true_iff in H as [_ H].
  refine (some_all_disjoint _ _ _ _ H Hd).
  intros c. each_char c.
Qed.

(** [int.__repr__] is injective. *)
Lemma intstr_inj (n m : Z) : json.intstr n = json.intstr m -> n = m.
Proof.
  unfold json.intstr. intros H.
  assert (Hn : forall z, Z.to_int z <> Decimal.Pos Decimal.Nil
                         /\ Z.to_int z <> Decimal.Neg Decimal.Nil).
  { intros [|p|p]; cbn; split; try discriminate;
      intros [= Hp]; exact (DecimalPos.Unsigned.to_uint_nonnil p Hp). }
  apply DecimalZ.to_int_inj.
  assert (Hs : Some (Z.to_int n) = Some (Z.to_int m)).
  { rewrite <- (NilZero.isi (Z.to_int n)) by apply Hn.
    rewrite <- (NilZero.isi (Z.to_int m)) by apply Hn.
    now rewrite H. }
  now injection Hs.
Qed.

(** [unescape_head] reads back what [escape_char] wrote, and leaves the
    rest. *)
Lemma unescape_escape_char (c : ascii) (rest : string) :
  unescape_head (json.escape_char c ++ rest) = Some (c, rest).
Proof.
  destruct c as [[|] [|] [|] [|] [|] [|] [|] [|]]; reflexivity.
Qed.

(** An escaped text up to its closing quote determines the text and what
    follows the quote. *)
Lemma escape_prefix_free (s1 s2 r1 r2 : string) :
  json.escape s1 ++ String "034" r1 = json.escape s2 ++ String "034" r2 ->
  s1 = s2 /\ r1 = r2.
Proof.
  revert s2; induction s1 as [|c1 s1 IH]; intros [|c2 s2]; cbn [json.escape].
  - cbn. intros [= ->]. now split.
  - rewrite string_app_assoc. intros H.
    apply (f_equal unescape_head) in H.
    rewrite unescape_escape_char in H. discriminate.
  - rewrite string_app_assoc. intros H.
    apply (f_equal unescape_head) in H.
    rewrite unescape_escape_char in H. discriminate.
  - rewrite !string_app_assoc. intros H.
    apply (f_equal unescape_head) in H.
    rewrite !unescape_escape_char in H. injection H as -> H.
    destruct (IH s2 H) as [-> ->]. now split.
Qed.

(** The text of a string, up to its closing quote, determines the string
    and the rest. *)
Lemma encode_str_prefix_free (s1 s2 r1 r2 : string) :
  json.encode_str s1 ++ r1 = json.encode_str s2 ++ r2 ->
  s1 = s2 /\ r1 = r2.
Proof.
  unfold json.encode_str, json.dquote. cbn [append].
  rewrite !string_app_assoc. cbn [append].
  intros [= H]. exact (escape_prefix_free _ _ _ _ H).
Qed.

Lemma concat_cons2 (sep a b : string) (l : list string) :
  String.concat sep (a :: b :: l) = a ++ sep ++ String.concat sep (b :: l).
Proof. reflexivity. Qed.

Lemma rmap_cons_inv {A B} (f : A -> result B) (a : A) (l : list A)
    (bs : list B) :
  rmap f (a :: l) = ok bs ->
  exists b bs', f a = ok b /\ rmap f l = ok bs' /\ bs = b :: bs'.
Proof.
  cbn. destruct (f a) as [e|b]; cbn; [discriminate|].
  destruct (rmap f l) as [e|bs']; cbn; [discriminate|].
  intros [= <-]. now exists b, bs'.
Qed.

(** Items rendered one after the other, separated by a comma and closed
    by a line feed: when the text of each item of the first list
    determines the item, the text of the whole determines the list. *)
Section Chain.

Variable A : Type.
Variable f : A -> result string.
Variable good : A -> Prop.
Variable sep : string.
Hypothesis sep_comma : exists x, sep = String "," x.

Lemma chain_free (l1 : list A) :
  Forall (item_free A f good) l1 ->
  forall l2 cs1 cs2 T1 T2,
    Forall good l2 ->
    rmap f l1 = ok cs1 -> rmap f l2 = ok cs2 ->
    l1 <> [] -> l2 <> [] ->
    (exists x, T1 = String "010" x) -> (exists x, T2 = String "010" x) ->
    String.concat sep cs1 ++ T1 = String.concat sep cs2 ++ T2 ->
    l1 = l2 /\ T1 = T2.
Proof.
  destruct sep_comma as [sx Hsep].
  induction 1 as [|a l1 Ha Hl1 IH]; intros l2 cs1 cs2 T1 T2 Hg H1 H2 Hn1 Hn2
                                             [x1 HT1] [x2 HT2] Heq;
    [now contradiction Hn1|].
  destruct l2 as [|b l2]; [now contradiction Hn2|].
  apply rmap_cons_inv in H1 as (ca & cs1' & Hca & H1 & ->).
  apply rmap_cons_inv in H2 as (cb & cs2' & Hcb & H2 & ->).
  inversion Hg as [|? ? Hgb Hg']; subst.
  assert (HdT1 : delimited (String "010" x1) = true) by reflexivity.
  assert (HdT2 : delimited (String "010" x2) = true) by reflexivity.
  assert (Hds : forall y, delimited (String "," sx ++ y) = true)
    by reflexivity.
  destruct l1 as [|a' l1], l2 as [|b' l2].
  - cbn in H1, H2. injection H1 as <-. injection H2 as <-. cbn in Heq.
    destruct (Ha b ca cb _ _ Hgb Hca Hcb HdT1 HdT2 Heq) as [-> ->].
    now split.
  - cbn in H1. injection H1 as <-.
    apply rmap_cons_inv in H2 as (cb' & cs2'' & Hcb' & H2 & ->).
    rewrite concat_cons2, string_app_assoc, string_app_assoc in Heq.
    cbn [String.concat] in Heq.
    destruct (Ha b ca cb _ _ Hgb Hca Hcb HdT1 (Hds _) Heq) as [_ Habs].
    discriminate.
  - cbn in H2. injection H2 as <-.
    apply rmap_cons_inv in H1 as (ca' & cs1'' & Hca' & H1 & ->).
    rewrite concat_cons2, string_app_assoc, string_app_assoc in Heq.
    cbn [String.concat] in Heq.
    destruct (Ha b ca cb _ _ Hgb Hca Hcb (Hds _) HdT2 Heq) as [_ Habs].
    discriminate.
  - pose proof H1 as H1'. pose proof H2 as H2'.
    apply rmap_cons_inv in H1' as (ca' & cs1'' & _ & _ & ->).
    apply rmap_cons_inv in H2' as (cb' & cs2'' & _ & _ & ->).
    rewrite !concat_cons2, !string_app_assoc in Heq.
    destruct (Ha b ca cb _ _ Hgb Hca Hcb (Hds _) (Hds _) Heq) as [-> Hrest].
    apply string_app_inv_head in Hrest.
    assert (Hn : forall (y : A) (l : list A), y :: l <> [])
      by discriminate.
    destruct (IH (b' :: l2) _ _ (String "010" x1) (String "010" x2)
                Hg' H1 H2 (Hn _ _) (Hn _ _)
                (ex_intro _ x1 eq_refl) (ex_intro _ x2 eq_refl) Hrest)
      as [Hl HT].
    rewrite Hl. split; [reflexivity | exact HT].
Qed.

End Chain.

Section TextDeterminesValue.

Variable indent : nat.
Variable default : option (pyobject -> string).

Local Abbreviation enc := (json.iterencode indent default).

(** The text of a literal is a token. *)
Lemma token_text (v : pyvalue) (level : nat) (t : string) :
  is_token v = true -> wire v = true -> enc v level = ok t ->
  all_chars token_char t = true.
Proof.
  destruct v as [ | [|] | n | repr | | | | | ]; cbn; try discriminate;
    intros _ Hw [= <-]; try reflexivity.
  - exact (all_chars_impl _ _ _ digit_or_minus_token (intstr_digits n)).
  - exact (float_text_token repr Hw).
Qed.

(** Two literals with the same text are the same value. *)
Lemma token_value_inj (v1 v2 : pyvalue) (level : nat) (t : string) :
  is_token v1 = true -> is_token v2 = true ->
  wire v1 = true -> wire v2 = true ->
  enc v1 level = ok t -> enc v2 level = ok t ->
  v1 = v2.
Proof.
  destruct v1 as [ | [|] | n | repr | | | | | ],
           v2 as [ | [|] | m | repr' | | | | | ];
    cbn; try discriminate; intros _ _ Hw1 Hw2 He1 He2;
    try reflexivity;
    pose proof (f_equal (fun r : result string =>
                           match r with inr x => x | inl _ => "" end)
                  (eq_trans He2 (eq_sym He1))) as H; cbn in H;
    try (pose proof (intstr_digits m) as X; rewrite H in X; discriminate X);
    try (pose proof (intstr_digits n) as X; rewrite <- H in X;
         discriminate X);
    try (subst; discriminate).
  - now rewrite (intstr_inj _ _ (eq_sym H)).
  - destruct (float_text_not_int repr' Hw2). rewrite H. apply intstr_digits.
  - destruct (float_text_not_int repr Hw1). rewrite <- H. apply intstr_digits.
  - now subst.
Qed.

Lemma opener_cases (v : pyvalue) :
  opener v = "034"%char \/ opener v = "["%char \/ opener v = "{"%char.
Proof. destruct v; cbn; auto. Qed.

(** The text of a string, a list or a dictionary opens with its
    opener. *)
Lemma open_head (v : pyvalue) (level : nat) (t : string) :
  is_token v = false -> wire v = true -> enc v level = ok t ->
  exists x, t = String (opener v) x.
Proof.
  destruct v as [ | | | | s | items | | entries | ]; cbn [is_token wire];
    try discriminate; intros _ _.
  - cbn. intros [= <-]. eexists; reflexivity.
  - destruct items as [|v items]; [cbn; intros [= <-]; eexists; reflexivity|].
    rewrite iterencode_list.
    destruct (rmap _ (v :: items)) as [e|cs]; unfold rbind, ok;
      [discriminate|].
    intros [= <-]. eexists; reflexivity.
  - destruct entries as [|kv entries];
      [cbn; intros [= <-]; eexists; reflexivity|].
    rewrite iterencode_dict.
    destruct (rmap _ (kv :: entries)) as [e|cs]; unfold rbind, ok;
      [discriminate|].
    intros [= <-]. eexists; reflexivity.
Qed.

(** Two values whose texts, each followed by a delimited rest, are equal
    are of the same kind. *)
Lemma kinds_agree (v1 v2 : pyvalue) (level : nat) (t1 t2 r1 r2 : string) :
  wire v1 = true -> wire v2 = true ->
  enc v1 level = ok t1 -> enc v2 level = ok t2 ->
  delimited r1 = true -> delimited r2 = true ->
  t1 ++ r1 = t2 ++ r2 ->
  (is_token v1 = true /\ is_token v2 = true)
  \/ (is_token v1 = false /\ is_token v2 = false
      /\ opener v1 = opener v2).
Proof.
  intros Hw1 Hw2 He1 He2 Hd1 Hd2 Heq.
  destruct (is_token v1) eqn:Hk1, (is_token v2) eqn:Hk2.
  - now left.
  - exfalso. destruct (open_head v2 level t2 Hk2 Hw2 He2) as [x ->].
    exact (token_not_open t1 r1 _ _ (token_text v1 level t1 Hk1 Hw1 He1)
             Hd1 Heq (opener_cases v2)).
  - exfalso. destruct (open_head v1 level t1 Hk1 Hw1 He1) as [x ->].
    exact (token_not_open t2 r2 _ _ (token_text v2 level t2 Hk2 Hw2 He2)
             Hd2 (eq_sym Heq) (opener_cases v1)).
  - right. split; [reflexivity|]. split; [reflexivity|].
    destruct (open_head v1 level t1 Hk1 Hw1 He1) as [x1 ->].
    destruct (open_head v2 level t2 Hk2 Hw2 He2) as [x2 ->].
    cbn in Heq. now injection Heq.
Qed.

End TextDeterminesValue.

Section PrefixFree.

Variable indent : nat.
Variable default : option (pyobject -> string).

Local Abbreviation enc := (json.iterencode indent default).

(** The text of [v1], with what follows it inside a container, determines
    [v1] among the decoded values and the rest. *)
Local Abbreviation value_free v1 :=
  (wire v1 = true ->
   forall level v2 t1 t2 r1 r2,
     wire v2 = true ->
     enc v1 level = ok t1 -> enc v2 level = ok t2 ->
     delimited r1 = true -> delimited r2 = true ->
     t1 ++ r1 = t2 ++ r2 ->
     v1 = v2 /\ r1 = r2).

Local Abbreviation encode_entry level :=
  (fun kv : string * pyvalue =>
     let (k, v) := kv in
     rbind (enc v (S level)) (fun c => ok (json.encode_str k ++ ": " ++ c))).

Lemma bracket_app (opening closing : string) (level : nat)
    (chunks : list string) (r : string) :
  json.bracket indent opening closing level chunks ++ r
  = opening ++ json.newline_indent indent (S level)
      ++ (String.concat ("," ++ json.newline_indent indent (S level)) chunks
          ++ (json.newline_indent indent level ++ closing ++ r)).
Proof.
  unfold json.bracket. now rewrite !string_app_assoc.
Qed.

(** Two non-empty containers of the same brackets: equal texts give equal
    item lists, once each item of the first determines itself. *)
Lemma container_free {A : Type} (f : A -> result string) (good : A -> Prop)
    (opening closing : string) (level : nat) (l1 l2 : list A)
    (cs1 cs2 : list string) (r1 r2 : string) :
  Forall (item_free A f good) l1 ->
  Forall good l2 ->
  l1 <> [] -> l2 <> [] ->
  rmap f l1 = ok cs1 -> rmap f l2 = ok cs2 ->
  json.bracket indent opening closing level cs1 ++ r1
  = json.bracket indent opening closing level cs2 ++ r2 ->
  l1 = l2 /\ r1 = r2.
Proof.
  intros Hfree Hgood Hn1 Hn2 H1 H2 Heq.
  rewrite !bracket_app in Heq.
  apply string_app_inv_head in Heq. apply string_app_inv_head in Heq.
  destruct (chain_free A f good
              ("," ++ json.newline_indent indent (S level))
              (ex_intro _ _ eq_refl) l1 Hfree l2 cs1 cs2
              (json.newline_indent indent level ++ closing ++ r1)
              (json.newline_indent indent level ++ closing ++ r2)
              Hgood H1 H2 Hn1 Hn2
              (ex_intro _ _ eq_refl) (ex_intro _ _ eq_refl) Heq)
    as [Hl HT].
  split; [exact Hl|].
  apply string_app_inv_head in HT. now apply string_app_inv_head in HT.
Qed.

Lemma empty_vs_bracket (o c : ascii) (closing : string) (level : nat)
    (cs : list string) (r1 r2 : string) :
  String o (String c EmptyString) ++ r1
  = json.bracket indent (String o EmptyString) closing level cs ++ r2 ->
  c <> "010"%char -> False.
Proof.
  unfold json.bracket, json.newline_indent, json.lf. cbn [append].
  intros [= H _] Hc. now apply Hc.
Qed.

Theorem text_determines_value (v1 : pyvalue) : value_free v1.
Proof.
  induction v1 as [ | b | n | repr | s | items IH | items IH | entries IH | o ]
    using pyvalue_nested_ind;
    intros Hw1 level v2 t1 t2 r1 r2 Hw2 He1 He2 Hd1 Hd2 Heq;
    try discriminate Hw1;
    destruct (kinds_agree indent default _ v2 level t1 t2 r1 r2
                Hw1 Hw2 He1 He2 Hd1 Hd2 Heq)
      as [[Hk1 Hk2]|(Hk1 & Hk2 & Hop)];
    try discriminate Hk1.
  1-4: destruct (token_split t1 t2 r1 r2
                   (token_text indent default _ level t1 Hk1 Hw1 He1)
                   (token_text indent default v2 level t2 Hk2 Hw2 He2)
                   Hd1 Hd2 Heq) as [-> ->];
       split; [|reflexivity];
       exact (token_value_inj indent default _ v2 level t2
                Hk1 Hk2 Hw1 Hw2 He1 He2).
  - (* strings *)
    destruct v2; try discriminate Hk2; try discriminate Hop.
    cbn in He1, He2. injection He1 as <-. injection He2 as <-.
    destruct (encode_str_prefix_free _ _ _ _ Heq) as [-> ->]. now split.
  - (* lists *)
    destruct v2 as [ | | | | | items2 | | | ];
      try discriminate Hk2; try discriminate Hop; try discriminate Hw2.
    cbn [wire] in Hw1, Hw2.
    destruct items as [|x items], items2 as [|y items2].
    + cbn in He1, He2. injection He1 as <-. injection He2 as <-.
      apply string_app_inv_head in Heq. now subst.
    + exfalso. cbn in He1. injection He1 as <-.
      rewrite iterencode_list in He2.
      destruct (rmap _ (y :: items2)) as [e|cs2]; unfold rbind, ok in He2;
        [discriminate|].
      injection He2 as <-.
      exact (empty_vs_bracket "[" "]" "]" level cs2 r1 r2 Heq
               ltac:(discriminate)).
    + exfalso. cbn in He2. injection He2 as <-.
      rewrite iterencode_list in He1.
      destruct (rmap _ (x :: items)) as [e|cs1]; unfold rbind, ok in He1;
        [discriminate|].
      injection He1 as <-.
      exact (empty_vs_bracket "[" "]" "]" level cs1 r2 r1 (eq_sym Heq)
               ltac:(discriminate)).
    + rewrite iterencode_list in He1, He2.
      destruct (rmap _ (x :: items)) as [e|cs1] eqn:H1;
        unfold rbind, ok in He1; [discriminate|].
      destruct (rmap _ (y :: items2)) as [e|cs2] eqn:H2;
        unfold rbind, ok in He2; [discriminate|].
      injection He1 as <-. injection He2 as <-.
      assert (Hfree : Forall (item_free pyvalue (fun v => enc v (S level))
                                (fun v => wire v = true)) (x :: items)).
      { pose proof (Forall_forallb_impl _ _ _ IH Hw1) as IH'.
        eapply Forall_impl; [|exact IH'].
        intros a Ha b ca cb q1 q2 Hb Hca Hcb Hq1 Hq2 Hq.
        exact (Ha (S level) b ca cb q1 q2 Hb Hca Hcb Hq1 Hq2 Hq). }
      assert (Hgood : Forall (fun v => wire v = true) (y :: items2)).
      { apply Forall_forall. intros a Ha.
        exact (proj1 (forallb_forall _ _) Hw2 a Ha). }
      destruct (container_free (fun v => enc v (S level))
                  (fun v => wire v = true) "[" "]" level
                  (x :: items) (y :: items2) cs1 cs2 r1 r2
                  Hfree Hgood ltac:(discriminate) ltac:(discriminate)
                  H1 H2 Heq) as [Hl Hr].
      rewrite Hl. now split.
  - (* dictionaries *)
    destruct v2 as [ | | | | | | | entries2 | ];
      try discriminate Hk2; try discriminate Hop.
    cbn [wire] in Hw1, Hw2.
    destruct entries as [|x entries], entries2 as [|y entries2].
    + cbn in He1, He2. injection He1 as <-. injection He2 as <-.
      apply string_app_inv_head in Heq. now subst.
    + exfalso. cbn in He1. injection He1 as <-.
      rewrite iterencode_dict in He2.
      destruct (rmap _ (y :: entries2)) as [e|cs2]; unfold rbind, ok in He2;
        [discriminate|].
      injection He2 as <-.
      exact (empty_vs_bracket "{" "}" "}" level cs2 r1 r2 Heq
               ltac:(discriminate)).
    + exfalso. cbn in He2. injection He2 as <-.
      rewrite iterencode_dict in He1.
      destruct (rmap _ (x :: entries)) as [e|cs1]; unfold rbind, ok in He1;
        [discriminate|].
      injection He1 as <-.
      exact (empty_vs_bracket "{" "}" "}" level cs1 r2 r1 (eq_sym Heq)
               ltac:(discriminate)).
    + rewrite iterencode_dict in He1, He2.
      destruct (rmap _ (x :: entries)) as [e|cs1] eqn:H1;
        unfold rbind, ok in He1; [discriminate|].
      destruct (rmap _ (y :: entries2)) as [e|cs2] eqn:H2;
        unfold rbind, ok in He2; [discriminate|].
      injection He1 as <-. injection He2 as <-.
      assert (Hfree : Forall (item_free (string * pyvalue)
                                (encode_entry level)
                                (fun kv => wire (snd kv) = true))
                        (x :: entries)).
      { pose proof (Forall_forallb_impl
                      (fun kv : string * pyvalue => wire (snd kv))
                      _ _ IH Hw1) as IH'.
        eapply Forall_impl; [|exact IH'].
        intros [k1 a] Ha [k2 b] ca cb q1 q2 Hb Hca Hcb Hq1 Hq2 Hq.
        cbn in Ha, Hb.
        destruct (enc a (S level)) as [e|ta] eqn:Hta;
          unfold rbind, ok in Hca; [discriminate|].
        destruct (enc b (S level)) as [e|tb] eqn:Htb;
          unfold rbind, ok in Hcb; [discriminate|].
        injection Hca as <-. injection Hcb as <-.
        change ((json.encode_str k1 ++ ": " ++ ta) ++ q1
                = (json.encode_str k2 ++ ": " ++ tb) ++ q2) in Hq.
        rewrite !string_app_assoc in Hq.
        destruct (encode_str_prefix_free _ _ _ _ Hq) as [-> Hq'].
        apply string_app_inv_head in Hq'.
        destruct (Ha (S level) b ta tb q1 q2 Hb Hta Htb Hq1 Hq2 Hq')
          as [-> ->].
        now split. }
      assert (Hgood : Forall (fun kv : string * pyvalue =>
                                wire (snd kv) = true) (y :: entries2)).
      { apply Forall_forall. intros a Ha.
        exact (proj1 (forallb_forall _ _) Hw2 a Ha). }
      destruct (container_free (encode_entry level)
                  (fun kv : string * pyvalue => wire (snd kv) = true)
                  "{" "}" level
                  (x :: entries) (y :: entries2) cs1 cs2 r1 r2
                  Hfree Hgood ltac:(discriminate) ltac:(discriminate)
                  H1 H2 Heq) as [Hl Hr].
      rewrite Hl. now split.
Qed.

End PrefixFree.

(** On decoded values whose strings hold code points below 256,
    [json.dumps] is injective: the text determines the value. *)
Lemma dumps_injective indent default (v1 v2 : pyvalue) (text : string) :
  wire v1 = true -> wire v2 = true ->
  json.dumps indent default v1 = ok text ->
  json.dumps indent default v2 = ok text ->
  v1 = v2.
Proof.
  intros Hw1 Hw2 H1 H2.
  refine (proj1 (text_determines_value indent default v1 Hw1 0%nat v2
                   text text EmptyString EmptyString Hw2 H1 H2
                   eq_refl eq_refl eq_refl)).
Qed.

(** The escaping is not injective on all Python strings: the code point
    [U+1F600] and the two lone surrogates [U+D83D], [U+DE00] get the same
    text.  What follows on texts that determine values holds of the
    strings of this development, which hold code points below 256, and
    does not extend to strings with lone surrogates. *)
Remark surrogate_pair_collision :
  escape_code_points [128512%N] = escape_code_points [55357%N; 56832%N].
Proof. reflexivity. Qed.

(** For strings of code points below 256 and arguments decoded from
    JSON, two error envelopes with the same text have the same message,
    the same name and the same arguments mapping, key by key and value by
    value, in the same order. *)
Lemma error_envelope_determines_invocation
    (e1 e2 n1 n2 : string) (a1 a2 : dict) (out : list TextContent.t) :
  wire (PDict a1) = true ->
  wire (PDict a2) = true ->
  error_envelope e1 n1 a1 out ->
  error_envelope e2 n2 a2 out ->
  e1 = e2 /\ n1 = n2 /\ a1 = a2.
Proof.
  intros Hw1 Hw2 (t1 & H1 & ->) (t2 & H2 & [= <-]).
  assert (H : PDict [("error", PStr e1); ("tool", PStr n1);
                     ("arguments", PDict a1)]
              = PDict [("error", PStr e2); ("tool", PStr n2);
                       ("arguments", PDict a2)]).
  { refine (dumps_injective 2 None _ _ t1 _ _ H1 H2).
    - cbn [wire forallb snd]. cbn [wire] in Hw1. now rewrite Hw1.
    - cbn [wire forallb snd]. cbn [wire] in Hw2. now rewrite Hw2. }
  now injection H.
Qed.

(** For strings of code points below 256, two responses with decoded
    bodies whose success envelopes have the same text have the same
    status code and the same payload. *)
Lemma success_envelope_determines_result
    (r1 r2 : Response.t) (out : list TextContent.t) :
  wire_body r1 -> wire_body r2 ->
  success_envelope (_handle_response r1) out ->
  success_envelope (_handle_response r2) out ->
  _handle_response r1 = _handle_response r2.
Proof.
  assert (Hp : forall r, wire_body r ->
                         exists p, _handle_response r
                                   = PTuple [PInt (Response.status_code r); p]
                                   /\ wire p = true).
  { intros r Hr. unfold _handle_response.
    destruct (Response.json r) as [e|parsed] eqn:Hj.
    - eexists; split; reflexivity.
    - eexists; split; [reflexivity|]. now apply Hr. }
  intros Hw1 Hw2 (t1 & H1 & ->) (t2 & H2 & [= <-]).
  destruct (Hp r1 Hw1) as (p1 & Hr1 & Hwp1).
  destruct (Hp r2 Hw2) as (p2 & Hr2 & Hwp2).
  rewrite Hr1, Hr2. rewrite Hr1 in H1. rewrite Hr2 in H2.
  destruct (iterencode_default_total 2 str p1 1) as [tp1 Htp1].
  destruct (iterencode_default_total 2 str p2 1) as [tp2 Htp2].
  rewrite (dumps_pair (Some str) (PInt (Response.status_code r1)) p1
             (json.intstr (Response.status_code r1)) tp1 eq_refl Htp1) in H1.
  rewrite (dumps_pair (Some str) (PInt (Response.status_code r2)) p2
             (json.intstr (Response.status_code r2)) tp2 eq_refl Htp2) in H2.
  injection H1 as H1. injection H2 as H2. rewrite <- H2 in H1. clear H2.
  unfold json.lf in H1. cbn [append] in H1.
  injection H1 as H1.
  match type of H1 with
  | ?a ++ ?x = ?b ++ ?y =>
      destruct (text_determines_value 2 (Some str)
                  (PInt (Response.status_code r1)) eq_refl 1%nat
                  (PInt (Response.status_code r2)) a b x y
                  eq_refl eq_refl eq_refl eq_refl eq_refl H1) as [Hs Hrest]
  end.
  injection Hrest as Hrest.
  match type of Hrest with
  | _ ++ ?x = _ ++ ?y =>
      destruct (text_determines_value 2 (Some str) p1 Hwp1 1%nat p2 tp1 tp2
                  x y Hwp2 Htp1 Htp2 eq_refl eq_refl Hrest) as [Hpp _]
  end.
  now rewrite Hs, Hpp.
Qed.

(** X9. The [except] block renders its dictionary without [default=].
    When the [try] block raised, in the routing or in the client, and a
    value among the arguments is not one [json] can encode, [call_tool]
    returns no envelope: the [TypeError] of the encoder leaves it. *)
Theorem except_block_raises_on_unserializable
    (name : string) (arguments : dict) :
  json.serializable (PDict arguments) = false ->
  forall (State : Type)
         (backend : Fewsats.request -> State -> result Response.t * State)
         (s : State) (e : exn),
    outcome_of backend (try_block name arguments) s = raise e ->
    exists msg,
      outcome_of backend (call_tool name arguments) s
      = raise (TypeError msg).
Proof.
  intros Hs State backend s e. unfold outcome_of, call_tool.
  rewrite run_try_except.
  destruct (run backend (try_block name arguments) s)
    as [[requests s'] [e'|out]]; cbn [snd]; [|discriminate].
  intros _.
  destruct (dumps_unserializable 2 (error_result e' name arguments))
    as [msg Hm].
  { cbn in *. now rewrite Hs. }
  exists msg. unfold except_block. rewrite Hm. reflexivity.
Qed.

Lemma except_block_raises_on_unserializable_witness :
  exists msg,
    outcome_of failing_backend
      (call_tool "payment_info"
         [("pid", PObject (mk_pyobject "object" "<object>"))]) tt
    = raise (TypeError msg).
Proof.
  exact (except_block_raises_on_unserializable "payment_info"
           [("pid", PObject (mk_pyobject "object" "<object>"))] eq_refl
           unit failing_backend tt (OtherError "connection refused")
           eq_refl).
Defined.

(** X10. The catalogue and the routing name the same tools: the routing
    raises [Unknown tool] exactly for the names [list_tools] does not
    list.  A listed name is never answered as unknown: its routing raises
    the [KeyError] of a missing argument or makes its call. *)
Theorem unknown_tool_iff_unlisted (name : string) (arguments : dict) :
  route name arguments = throw (ValueError ("Unknown tool: " ++ name))
  <-> ~ In name (map Tool.name list_tools).
Proof.
  split; [|apply route_unknown].
  intros Hr Hin.
  destruct (first_missing (required_keys name) arguments) as [k|] eqn:Hm.
  - rewrite (route_first_missing name arguments k Hm) in Hr. discriminate.
  - destruct (route_none_missing name arguments Hin Hm) as [rq Hq].
    rewrite Hq in Hr. discriminate.
Qed.
